(** * BookOrderBackend: the order / SMS-verification service of [main.py]

    A shallow embedding of the request handlers of [src/main.py]
    ([initiate_order], [verify_and_create_order], [resend_verification_code],
    [get_current_session], [update_order_status], [cancel_order],
    [get_orders], [get_order], [get_all_sessions]) over an
    explicit database state, followed by the properties of the
    verification-session life cycle and of the order status machine.

    Conventions of the embedding
    - a handler is a function from the database to the new database and
      a [Result]: either the returned value or the raised exception;
    - the two tables are lists of rows in insertion order, with primary
      keys drawn from a sequence; the row object that SQLAlchemy hands
      back from [.first()] is the row at the index returned by
      [list_find], and [db.commit()] of a changed attribute, or
      [db.delete(row)], acts on that index;
    - what the repository leaves to the interpreter and to the database
      engine (how [sum] adds floats, the range of an [Integer] column,
      whether a refused insert draws from the sequence, the order of a
      query without [ORDER BY]) is gathered in the class [Platform]; the
      properties are proved for every platform, and the samples are
      evaluated on [sample_platform];
    - every reading of [datetime.utcnow()], the token drawn by
      [secrets.token_urlsafe(32)] and the HTTP exchange with the SMS
      provider are inputs of the handler;
    - instants are integers, in microseconds (the resolution of [datetime]);
    - a Python [float] is a binary64 number, a Python [int] is in [Z]. *)

From Stdlib Require Import ZArith Ascii PrimFloat FloatOps SpecFloat.
From stdpp Require Import base option relations list strings pretty.

Local Open Scope Z_scope.

(** ** Python values *)

(** Exceptions raised by the handlers.  [HTTPException] is fastapi's; the
    others are the built-in or library exceptions that the handlers let
    escape (the framework answers those with status 500) or catch.
    [OSError] and [JSONDecodeError] carry their message, which
    [initiate_order] copies into its answer; [DataError] is the error of
    the database engine, or of its driver, for an integer outside the
    range of the column. *)
Inductive Exception : Type :=
  | HTTPException (status_code : Z) (detail : string)
  | AttributeError
  | OverflowError
  | ValueError
  | IntegrityError
  | DataError
  | OSError (message : string)
  | JSONDecodeError (message : string).

Global Instance Exception_eq_dec : EqDecision Exception.
Proof. solve_decision. Defined.

Inductive Result (A : Type) : Type :=
  | Return (a : A)
  | Raise (e : Exception).
Arguments Return {A} a.
Arguments Raise {A} e.

(** The constants of [fastapi.status] that [main.py] uses. *)
Module status.
Definition HTTP_400_BAD_REQUEST : Z := 400.
Definition HTTP_401_UNAUTHORIZED : Z := 401.
Definition HTTP_403_FORBIDDEN : Z := 403.
Definition HTTP_404_NOT_FOUND : Z := 404.
Definition HTTP_429_TOO_MANY_REQUESTS : Z := 429.
Definition HTTP_503_SERVICE_UNAVAILABLE : Z := 503.
End status.

(** [timedelta(hours=1)] and [timedelta(minutes=10)], in microseconds. *)
Definition timedelta_hours (h : Z) : Z := h * 3600000000.
Definition timedelta_minutes (m : Z) : Z := m * 60000000.

(** A Python number: [sum] starts from the [int] 0 and the prices are
    [float]s, so a total is an [int] only for an empty list of books. *)
Inductive PyNum : Type :=
  | PyInt (z : Z)
  | PyFloat (x : float).

(** [float(z)] for an [int]: rounded to the nearest binary64 number, ties to
    even; [OverflowError] when it is too large for a [float]. *)
Definition int_to_float (z : Z) : Result float :=
  match binary_normalize prec emax z 0 false with
  | S754_infinity _ => Raise OverflowError
  | sf => Return (SF2Prim sf)
  end.

(** [price * quantity] for a [float] and an [int]. *)
Definition float_mul_int (x : float) (n : Z) : Result float :=
  match int_to_float n with
  | Return y => Return (x * y)%float
  | Raise e => Raise e
  end.

(** [int(x)] for a [float]: truncation towards zero; [OverflowError] on an
    infinity and [ValueError] on a NaN. *)
Definition float_to_int (x : float) : Result Z :=
  match Prim2SF x with
  | S754_zero _ => Return 0
  | S754_finite s m e =>
      let mag := if 0 <=? e then Z.shiftl (Z.pos m) e
                 else Z.shiftr (Z.pos m) (- e) in
      Return (if s then - mag else mag)
  | S754_infinity _ => Raise OverflowError
  | S754_nan => Raise ValueError
  end.

Definition py_int (v : PyNum) : Result Z :=
  match v with
  | PyInt z => Return z
  | PyFloat x => float_to_int x
  end.

(** ** Pydantic models *)

Inductive PaymentMethod : Type := CASH_ON_DELIVERY | BKASH | NAGAD | CARD.

Definition PaymentMethod_value (p : PaymentMethod) : string :=
  match p with
  | CASH_ON_DELIVERY => "cash_on_delivery"
  | BKASH => "bkash"
  | NAGAD => "nagad"
  | CARD => "card"
  end.

Inductive OrderStatus : Type :=
  PENDING | VERIFIED | PROCESSING | SHIPPED | DELIVERED | CANCELLED.

Global Instance OrderStatus_eq_dec : EqDecision OrderStatus.
Proof. solve_decision. Defined.

Definition OrderStatus_value (s : OrderStatus) : string :=
  match s with
  | PENDING => "pending"
  | VERIFIED => "verified"
  | PROCESSING => "processing"
  | SHIPPED => "shipped"
  | DELIVERED => "delivered"
  | CANCELLED => "cancelled"
  end.

(** [OrderStatus(v)]: the member with value [v], [ValueError] if none. *)
Definition OrderStatus_of_value (v : string) : Result OrderStatus :=
  if decide (v = "pending") then Return PENDING
  else if decide (v = "verified") then Return VERIFIED
  else if decide (v = "processing") then Return PROCESSING
  else if decide (v = "shipped") then Return SHIPPED
  else if decide (v = "delivered") then Return DELIVERED
  else if decide (v = "cancelled") then Return CANCELLED
  else Raise ValueError.

(** Attribute lookup on a member of [OrderStatus] (a [str] subclass):
    [value] and [name] are its data attributes; the status-code constants
    of [fastapi.status] are not attributes of a member. *)
Definition OrderStatus_getattr (s : OrderStatus) (attr : string) : Result string :=
  if decide (attr = "value") then Return (OrderStatus_value s)
  else if decide (attr = "name") then
    Return match s with
           | PENDING => "PENDING" | VERIFIED => "VERIFIED"
           | PROCESSING => "PROCESSING" | SHIPPED => "SHIPPED"
           | DELIVERED => "DELIVERED" | CANCELLED => "CANCELLED"
           end
  else Raise AttributeError.

Module Book.
Record t : Type := mk {
  id : string;
  title : string;
  price : float;
  quantity : Z
}.
End Book.

(** The patterns of [phone_number] and [address] are checked by the
    framework before a handler runs and play no part in the handlers. *)
Module OrderRequest.
Record t : Type := mk {
  phone_number : string;
  address : string;
  payment_method : PaymentMethod;
  books : list Book.t
}.
End OrderRequest.

Module VerificationRequest.
Record t : Type := mk {
  session_token : string;
  pin_code : string
}.
End VerificationRequest.

Module OrderResponse.
Record t : Type := mk {
  id : Z;
  phone_number : string;
  address : string;
  payment_method : string;
  payment_status : string;
  books : list Book.t;
  total_amount : Z;
  order_status : string;
  created_at : Z;
  verified : bool
}.
End OrderResponse.

(** [validate_books]: at least one book. *)
Definition validate_books (v : list Book.t) : Result (list Book.t) :=
  match v with
  | [] => Raise ValueError
  | _ => Return v
  end.

(** ** Database models *)

(** The dictionary that [initiate_order] serialises into
    [VerificationSession.order_data] and [verify_and_create_order] parses
    back; [json.loads (json.dumps d)] gives [d] again for such a
    dictionary, so the column is modelled by the dictionary itself. *)
Module OrderData.
Record t : Type := mk {
  phone_number : string;
  address : string;
  payment_method : string;
  books : list Book.t;
  total_amount : PyNum
}.
End OrderData.

Module Order.
Record t : Type := mk {
  id : Z;
  phone_number : string;
  address : string;
  payment_method : string;
  payment_status : string;
  book_list : list Book.t;
  total_amount : Z;
  order_status : string;
  created_at : Z;
  updated_at : Z;
  verified : bool
}.

Definition set_order_status (v : string) (upd : Z) (o : t) : t :=
  mk (id o) (phone_number o) (address o) (payment_method o)
     (payment_status o) (book_list o) (total_amount o) v
     (created_at o) upd (verified o).
End Order.

Module VerificationSession.
Record t : Type := mk {
  id : Z;
  session_token : string;
  phone_number : string;
  pin_id : string;
  attempts : Z;
  verified : bool;
  expires_at : Z;
  created_at : Z;
  order_data : OrderData.t
}.

Definition set_attempts (v : Z) (s : t) : t :=
  mk (id s) (session_token s) (phone_number s) (pin_id s) v
     (verified s) (expires_at s) (created_at s) (order_data s).

Definition set_verified (v : bool) (s : t) : t :=
  mk (id s) (session_token s) (phone_number s) (pin_id s) (attempts s)
     v (expires_at s) (created_at s) (order_data s).

Definition set_pin_id (v : string) (s : t) : t :=
  mk (id s) (session_token s) (phone_number s) v (attempts s)
     (verified s) (expires_at s) (created_at s) (order_data s).

Definition set_expires_at (v : Z) (s : t) : t :=
  mk (id s) (session_token s) (phone_number s) (pin_id s) (attempts s)
     (verified s) v (created_at s) (order_data s).
End VerificationSession.

(** The two tables, with the next value of each primary-key sequence. *)
Record Database : Type := mkDatabase {
  verification_sessions : list VerificationSession.t;
  orders : list Order.t;
  verification_sessions_seq : Z;
  orders_seq : Z
}.

Definition with_sessions (l : list VerificationSession.t) (db : Database) : Database :=
  mkDatabase l (orders db) (verification_sessions_seq db) (orders_seq db).

Definition with_orders (l : list Order.t) (db : Database) : Database :=
  mkDatabase (verification_sessions db) l (verification_sessions_seq db) (orders_seq db).

Definition with_sessions_seq (seq : Z) (db : Database) : Database :=
  mkDatabase (verification_sessions db) (orders db) seq (orders_seq db).

Definition with_orders_seq (seq : Z) (db : Database) : Database :=
  mkDatabase (verification_sessions db) (orders db) (verification_sessions_seq db) seq.

(** ** The platform

    What the handlers take from the interpreter and from the database
    engine, neither of which the repository fixes:
    - [float_sum xs] is the value of the built-in [sum] on the non-empty
      list of floats [xs], started from the [int] 0; CPython adds from left
      to right up to version 3.11 and with a compensation term from 3.12;
    - [INTEGER_min] and [INTEGER_max] bound what a column of type
      [Integer] holds; the insert of another value is refused;
    - a refused insert may or may not have drawn a value from the sequence
      of the primary key: [sequence_after_duplicate] and
      [sequence_after_overflow] give the sequence after an insert refused
      for a duplicate token and for an integer out of range;
    - [scan] is the order in which a query without [ORDER BY] lists the
      rows of the table of orders. *)
Class Platform : Type := mkPlatform {
  float_sum : list float → float;
  INTEGER_min : Z;
  INTEGER_max : Z;
  sequence_after_duplicate : Z → Z;
  sequence_after_overflow : Z → Z;
  scan : list Order.t → list Order.t;
  sequence_after_duplicate_le : ∀ seq, seq ≤ sequence_after_duplicate seq;
  sequence_after_overflow_le : ∀ seq, seq ≤ sequence_after_overflow seq;
  scan_Permutation : ∀ l, scan l ≡ₚ l
}.

(** ** The Infobip 2FA client *)

(** What an HTTPS exchange with the provider gives: the connection fails,
    with the message of its [OSError], or a response arrives with its
    status and its body: the parsed JSON, or the message of the
    [JSONDecodeError] for a body that is not JSON. *)
Inductive Exchange (A : Type) : Type :=
  | ConnectionFailed (message : string)
  | Response (status : Z) (data : string + A).
Arguments ConnectionFailed {A} message.
Arguments Response {A} status data.

(** The fields of the provider's answers that the handlers read. *)
Record SendPinResult : Type := mkSendPinResult {
  pinId : option string
}.

Record VerifyPinResult : Type := mkVerifyPinResult {
  verified : option bool;
  attemptsRemaining : option Z
}.

(** The provider, seen from the client: [POST /2fa/2/pin] with the
    recipient, and [POST /2fa/2/pin/{pin_id}/verify] with the code. *)
Record Infobip2FAClient : Type := mkInfobip2FAClient {
  post_pin : string → Exchange SendPinResult;
  post_pin_verify : string → string → Exchange VerifyPinResult
}.

(** [phone_number.replace("+", "")]. *)
Fixpoint remove_plus (s : string) : string :=
  match s with
  | EmptyString => EmptyString
  | String c r =>
      if decide (c = "+"%char) then remove_plus r else String c (remove_plus r)
  end.

Definition send_pin (self : Infobip2FAClient) (phone_number : string)
  : Result SendPinResult :=
  match post_pin self (remove_plus phone_number) with
  | ConnectionFailed message => Raise (OSError message)
  | Response st data =>
      if decide (400 ≤ st) then
        Raise (HTTPException status.HTTP_503_SERVICE_UNAVAILABLE
                 "SMS service temporarily unavailable")
      else match data with
           | inl message => Raise (JSONDecodeError message)
           | inr d => Return d
           end
  end.

Definition verify_pin (self : Infobip2FAClient) (pin_id pin_code : string)
  : Result VerifyPinResult :=
  match post_pin_verify self pin_id pin_code with
  | ConnectionFailed message => Raise (OSError message)
  | Response st data =>
      if decide (400 ≤ st) then
        Raise (HTTPException status.HTTP_503_SERVICE_UNAVAILABLE
                 "Verification service temporarily unavailable")
      else match data with
           | inl message => Raise (JSONDecodeError message)
           | inr d => Return d
           end
  end.

(** [str(e)] as [initiate_order] puts it into its detail: status and
    detail for an [HTTPException], the message for an exception of the
    transport or of the JSON parser.  No other exception is raised inside
    the [try] of [initiate_order]. *)
Definition str_Exception (e : Exception) : string :=
  match e with
  | HTTPException c d => pretty c +:+ ": " +:+ d
  | OSError message | JSONDecodeError message => message
  | _ => ""
  end.

(** ** Dependencies *)

(** The filter of the three session queries:
    [session_token == token, expires_at > datetime.utcnow()]. *)
Definition live_token (token : string) (now : Z) (s : VerificationSession.t) : Prop :=
  VerificationSession.session_token s = token ∧ now < VerificationSession.expires_at s.

Global Instance live_token_dec token now s : Decision (live_token token now s).
Proof. unfold live_token. apply _. Defined.

Definition get_current_session (credentials : string) (now : Z) (db : Database)
  : Result VerificationSession.t :=
  match list_find (live_token credentials now) (verification_sessions db) with
  | None =>
      Raise (HTTPException status.HTTP_401_UNAUTHORIZED "Invalid or expired session")
  | Some (_, session) => Return session
  end.

(** ** Endpoints *)

(** *** POST /orders/initiate *)

(** The rows counted by the rate limit:
    [phone_number == order.phone_number,
     created_at > datetime.utcnow() - timedelta(hours=1)]. *)
Definition recent (phone_number : string) (now : Z) (s : VerificationSession.t) : Prop :=
  VerificationSession.phone_number s = phone_number
  ∧ now - timedelta_hours 1 < VerificationSession.created_at s.

Global Instance recent_dec phone_number now s : Decision (recent phone_number now s).
Proof. unfold recent. apply _. Defined.

Definition recent_sessions (phone_number : string) (now : Z) (db : Database) : Z :=
  Z.of_nat (length (filter (recent phone_number now) (verification_sessions db))).

(** The items of the generator [book.price * book.quantity for book in
    books], up to the first one that raises. *)
Fixpoint products (books : list Book.t) : Result (list float) :=
  match books with
  | [] => Return []
  | book :: rest =>
      match float_mul_int (Book.price book) (Book.quantity book) with
      | Raise e => Raise e
      | Return x =>
          match products rest with
          | Raise e => Raise e
          | Return xs => Return (x :: xs)
          end
      end
  end.

(** [sum(xs)] from the [int] 0: the [int] 0 itself for no item. *)
Definition py_sum `{Platform} (xs : list float) : PyNum :=
  match xs with
  | [] => PyInt 0
  | _ => PyFloat (float_sum xs)
  end.

(** [sum(book.price * book.quantity for book in books)]. *)
Definition total_amount `{Platform} (books : list Book.t) : Result PyNum :=
  match products books with
  | Raise e => Raise e
  | Return xs => Return (py_sum xs)
  end.

Module InitiateResponse.
Record t : Type := mk {
  message : string;
  session_token : string;
  expires_in_seconds : Z;
  total_amount : PyNum
}.
End InitiateResponse.

(** The body of the [try] of [initiate_order]: the PIN identifier, or
    the exception raised inside the [try]. *)
Definition send_otp (two_fa_client : Infobip2FAClient) (phone_number : string)
  : Result string :=
  match send_pin two_fa_client phone_number with
  | Raise e => Raise e
  | Return sms_result =>
      match pinId sms_result with
      | Some pin_id =>
          if decide (pin_id = "") then
            Raise (HTTPException status.HTTP_503_SERVICE_UNAVAILABLE
                     "Failed to send verification code")
          else Return pin_id
      | None =>
          Raise (HTTPException status.HTTP_503_SERVICE_UNAVAILABLE
                   "Failed to send verification code")
      end
  end.

(** [now_query] is the clock read by the rate-limit query, [now_expires]
    the one read for [expires_at], [now_created] the one read by the
    default of [created_at] when the row is written; [session_token] is the
    token drawn by [secrets.token_urlsafe(32)].  The column
    [session_token] is unique: the insert of a token already in the table
    is refused, and nothing but the sequence of the primary key can have
    changed then. *)
Definition initiate_order `{Platform} (two_fa_client : Infobip2FAClient)
    (now_query : Z) (session_token : string) (now_expires now_created : Z)
    (order : OrderRequest.t) (db : Database)
  : Database * Result InitiateResponse.t :=
  if decide (5 ≤ recent_sessions (OrderRequest.phone_number order) now_query db) then
    (db, Raise (HTTPException status.HTTP_429_TOO_MANY_REQUESTS
                  "Too many verification attempts. Please try again later."))
  else
    match total_amount (OrderRequest.books order) with
    | Raise e => (db, Raise e)
    | Return total =>
        match send_otp two_fa_client (OrderRequest.phone_number order) with
        | Raise e =>
            (db, Raise (HTTPException status.HTTP_503_SERVICE_UNAVAILABLE
                          ("SMS service error: " +:+ str_Exception e)))
        | Return pin_id =>
            let session :=
              VerificationSession.mk
                (verification_sessions_seq db)
                session_token
                (OrderRequest.phone_number order)
                pin_id
                0
                false
                (now_expires + timedelta_minutes 10)
                now_created
                (OrderData.mk
                   (OrderRequest.phone_number order)
                   (OrderRequest.address order)
                   (PaymentMethod_value (OrderRequest.payment_method order))
                   (OrderRequest.books order)
                   total) in
            if decide (session_token ∈
                         VerificationSession.session_token <$> verification_sessions db)
            then
              (with_sessions_seq
                 (sequence_after_duplicate (verification_sessions_seq db)) db,
               Raise IntegrityError)
            else
              (mkDatabase (verification_sessions db ++ [session]) (orders db)
                          (verification_sessions_seq db + 1) (orders_seq db),
               Return (InitiateResponse.mk
                         "Verification code sent to your phone"
                         session_token 600 total))
        end
    end.

(** *** POST /orders/verify *)

(** Truth value of [verify_result.get("verified")]. *)
Definition truthy (v : option bool) : bool := default false v.

(** [now_query] is the clock read by the session query; [now_created] and
    [now_updated] are read by the defaults of the two time columns of
    [orders] when the row is written.  An exception that escapes between
    [session.verified = True] and the commit leaves the rows as they
    were: the pending change is dropped when the request's database session
    is closed.  The commit itself is refused, with the same effect, when
    the total is outside the range of the column [total_amount]. *)
Definition verify_and_create_order `{Platform} (two_fa_client : Infobip2FAClient)
    (now_query now_created now_updated : Z)
    (verification : VerificationRequest.t) (db : Database)
  : Database * Result OrderResponse.t :=
  match list_find (live_token (VerificationRequest.session_token verification) now_query)
                  (verification_sessions db) with
  | None =>
      (db, Raise (HTTPException status.HTTP_401_UNAUTHORIZED "Invalid or expired session"))
  | Some (i, session) =>
      if VerificationSession.verified session then
        (db, Raise (HTTPException status.HTTP_400_BAD_REQUEST "Order already verified"))
      else
        match verify_pin two_fa_client (VerificationSession.pin_id session)
                         (VerificationRequest.pin_code verification) with
        | Raise (HTTPException c d) => (db, Raise (HTTPException c d))
        | Raise _ =>
            (db, Raise (HTTPException status.HTTP_503_SERVICE_UNAVAILABLE
                          "Verification service error"))
        | Return verify_result =>
            if negb (truthy (verified verify_result)) then
              let session' :=
                VerificationSession.set_attempts
                  (VerificationSession.attempts session + 1) session in
              let db1 := with_sessions (<[i := session']> (verification_sessions db)) db in
              let attempts_remaining := default 0 (attemptsRemaining verify_result) in
              if decide (attempts_remaining = 0) then
                (with_sessions (delete i (verification_sessions db1)) db1,
                 Raise (HTTPException status.HTTP_403_FORBIDDEN
                          "Maximum verification attempts exceeded"))
              else
                (db1,
                 Raise (HTTPException status.HTTP_400_BAD_REQUEST
                          ("Invalid code. " +:+ pretty attempts_remaining
                           +:+ " attempts remaining.")))
            else
              let session' := VerificationSession.set_verified true session in
              let order_data := VerificationSession.order_data session' in
              match py_int (OrderData.total_amount order_data) with
              | Raise e => (db, Raise e)
              | Return total =>
                if decide (total < INTEGER_min ∨ INTEGER_max < total) then
                  (with_orders_seq (sequence_after_overflow (orders_seq db)) db,
                   Raise DataError)
                else
                  let db_order :=
                    Order.mk (orders_seq db)
                             (OrderData.phone_number order_data)
                             (OrderData.address order_data)
                             (OrderData.payment_method order_data)
                             "pending"
                             (OrderData.books order_data)
                             total
                             (OrderStatus_value VERIFIED)
                             now_created
                             now_updated
                             true in
                  let db1 :=
                    mkDatabase (<[i := session']> (verification_sessions db))
                               (orders db ++ [db_order])
                               (verification_sessions_seq db)
                               (orders_seq db + 1) in
                  (with_sessions (delete i (verification_sessions db1)) db1,
                   Return (OrderResponse.mk
                             (Order.id db_order)
                             (Order.phone_number db_order)
                             (Order.address db_order)
                             (Order.payment_method db_order)
                             (Order.payment_status db_order)
                             (OrderData.books order_data)
                             (Order.total_amount db_order)
                             (Order.order_status db_order)
                             (Order.created_at db_order)
                             (Order.verified db_order)))
              end
        end
  end.

(** *** POST /orders/resend-code *)

(** [now_query] is read by the session query and [now_expires] for the new
    [expires_at].  [pin_id] is not nullable: when the provider's answer has
    no [pinId] the commit raises inside the [try], and the pending changes
    are dropped. *)
Definition resend_verification_code (two_fa_client : Infobip2FAClient)
    (now_query now_expires : Z) (session_token : string) (db : Database)
  : Database * Result Z :=
  match list_find (live_token session_token now_query) (verification_sessions db) with
  | None =>
      (db, Raise (HTTPException status.HTTP_404_NOT_FOUND "Session not found or expired"))
  | Some (i, session) =>
      if VerificationSession.verified session then
        (db, Raise (HTTPException status.HTTP_400_BAD_REQUEST "Order already verified"))
      else
        match send_pin two_fa_client (VerificationSession.phone_number session) with
        | Return (mkSendPinResult (Some pin_id)) =>
            let session' :=
              VerificationSession.set_expires_at (now_expires + timedelta_minutes 10)
                (VerificationSession.set_attempts 0
                   (VerificationSession.set_pin_id pin_id session)) in
            (with_sessions (<[i := session']> (verification_sessions db)) db,
             Return 600)
        | _ =>
            (db, Raise (HTTPException status.HTTP_503_SERVICE_UNAVAILABLE
                          "Failed to send verification code"))
        end
  end.

(** *** PUT /orders/{order_id}/status and DELETE /orders/{order_id} *)

(** The filter of the order query of both handlers:
    [Order.id == order_id, Order.phone_number == session.phone_number]. *)
Definition owned_order (order_id : Z) (session : VerificationSession.t) (o : Order.t) : Prop :=
  Order.id o = order_id ∧ Order.phone_number o = VerificationSession.phone_number session.

Global Instance owned_order_dec order_id session o : Decision (owned_order order_id session o).
Proof. unfold owned_order. apply _. Defined.

(** [valid_transitions.get(current_status, [])]. *)
Definition valid_transitions (current_status : OrderStatus) : list OrderStatus :=
  match current_status with
  | VERIFIED => [PROCESSING; CANCELLED]
  | PROCESSING => [SHIPPED; CANCELLED]
  | SHIPPED => [DELIVERED]
  | _ => []
  end.

(** The parameter [status : OrderStatus] of this handler hides the module
    [fastapi.status] in its body: [status.HTTP_404_NOT_FOUND] and
    [status.HTTP_400_BAD_REQUEST] are attribute lookups on the member of
    the enumeration, evaluated before the [HTTPException] is built; when a
    lookup raises, that exception is the one that leaves the handler.
    [now_query] is read by [get_current_session], [now_updated] for
    [updated_at]. *)
Definition update_order_status (order_id : Z) (status : OrderStatus)
    (credentials : string) (now_query now_updated : Z) (db : Database)
  : Database * Result string :=
  match get_current_session credentials now_query db with
  | Raise e => (db, Raise e)
  | Return session =>
      match list_find (owned_order order_id session) (orders db) with
      | None =>
          match OrderStatus_getattr status "HTTP_404_NOT_FOUND" with
          | Raise e => (db, Raise e)
          | Return _ =>
              (db, Raise (HTTPException status.HTTP_404_NOT_FOUND
                            "Order not found or unauthorized"))
          end
      | Some (j, order) =>
          match OrderStatus_of_value (Order.order_status order) with
          | Raise e => (db, Raise e)
          | Return current_status =>
              if decide (status ∉ valid_transitions current_status) then
                match OrderStatus_getattr status "HTTP_400_BAD_REQUEST" with
                | Raise e => (db, Raise e)
                | Return _ =>
                    (db, Raise (HTTPException status.HTTP_400_BAD_REQUEST
                                  ("Cannot transition from "
                                   +:+ OrderStatus_value current_status
                                   +:+ " to " +:+ OrderStatus_value status)))
                end
              else
                (with_orders
                   (<[j := Order.set_order_status (OrderStatus_value status)
                             now_updated order]> (orders db)) db,
                 Return ("Order status updated to " +:+ OrderStatus_value status))
          end
      end
  end.

Definition cancel_order (order_id : Z) (credentials : string)
    (now_query now_updated : Z) (db : Database)
  : Database * Result string :=
  match get_current_session credentials now_query db with
  | Raise e => (db, Raise e)
  | Return session =>
      match list_find (owned_order order_id session) (orders db) with
      | None =>
          (db, Raise (HTTPException status.HTTP_404_NOT_FOUND
                        "Order not found or unauthorized"))
      | Some (j, order) =>
          if decide (Order.order_status order ∈
                       [OrderStatus_value SHIPPED; OrderStatus_value DELIVERED]) then
            (db, Raise (HTTPException status.HTTP_400_BAD_REQUEST
                          "Cannot cancel shipped or delivered orders"))
          else
            (with_orders
               (<[j := Order.set_order_status (OrderStatus_value CANCELLED)
                         now_updated order]> (orders db)) db,
             Return "Order cancelled successfully")
      end
  end.

(** *** GET /orders/ and GET /orders/{order_id} *)

(** The [OrderResponse] that both handlers build from a row;
    [json.loads(order.book_list)] gives back the books that
    [verify_and_create_order] serialised. *)
Definition order_response (order : Order.t) : OrderResponse.t :=
  OrderResponse.mk
    (Order.id order)
    (Order.phone_number order)
    (Order.address order)
    (Order.payment_method order)
    (Order.payment_status order)
    (Order.book_list order)
    (Order.total_amount order)
    (Order.order_status order)
    (Order.created_at order)
    (Order.verified order).

(** [phone_number] is [None] when the query parameter is absent; the test
    [if phone_number:] also lets the empty string through without a
    filter.  The query has no [ORDER BY]: the rows come in the order of
    the engine's [scan].  [skip] and [limit] are taken as natural numbers:
    what a negative offset or limit does is left to the database engine. *)
Definition get_orders `{Platform} (skip limit : nat) (phone_number : option string)
    (db : Database) : list OrderResponse.t :=
  let query :=
    match phone_number with
    | Some p =>
        if decide (p = "") then orders db
        else filter (λ o, Order.phone_number o = p) (orders db)
    | None => orders db
    end in
  order_response <$> take limit (drop skip (scan query)).

Definition get_order (order_id : Z) (db : Database) : Result OrderResponse.t :=
  match list_find (λ o, Order.id o = order_id) (orders db) with
  | None => Raise (HTTPException status.HTTP_404_NOT_FOUND "Order not found")
  | Some (_, order) => Return (order_response order)
  end.

(** *** GET /admin/sessions *)

Module SessionInfo.
Record t : Type := mk {
  id : Z;
  phone : string;
  verified : bool;
  expires_at : Z;
  attempts : Z
}.
End SessionInfo.


(** ** The error kinds of the interface

    The kinds by which the interface names the failures, each as the
    exceptions that the handlers raise for it. *)

Definition SessionInvalid (e : Exception) : Prop :=
  e = HTTPException status.HTTP_401_UNAUTHORIZED "Invalid or expired session"
  ∨ e = HTTPException status.HTTP_404_NOT_FOUND "Session not found or expired".

Definition AlreadyConsumed (e : Exception) : Prop :=
  e = HTTPException status.HTTP_400_BAD_REQUEST "Order already verified".

Definition InvalidCode (attempts_remaining : Z) (e : Exception) : Prop :=
  e = HTTPException status.HTTP_400_BAD_REQUEST
        ("Invalid code. " +:+ pretty attempts_remaining +:+ " attempts remaining.").

Definition AttemptsExhausted (e : Exception) : Prop :=
  e = HTTPException status.HTTP_403_FORBIDDEN "Maximum verification attempts exceeded".

Definition ProviderUnavailable (e : Exception) : Prop :=
  ∃ detail, e = HTTPException status.HTTP_503_SERVICE_UNAVAILABLE detail.

Definition RateLimited (e : Exception) : Prop :=
  e = HTTPException status.HTTP_429_TOO_MANY_REQUESTS
        "Too many verification attempts. Please try again later.".

Definition NotFoundOrUnauthorized (e : Exception) : Prop :=
  e = HTTPException status.HTTP_404_NOT_FOUND "Order not found or unauthorized".

Definition InvalidTransition (current requested : OrderStatus) (e : Exception) : Prop :=
  e = HTTPException status.HTTP_400_BAD_REQUEST
        ("Cannot transition from " +:+ OrderStatus_value current
         +:+ " to " +:+ OrderStatus_value requested).

(** ** Rows and tokens *)

Abbreviation tokens l := (VerificationSession.session_token <$> l).

(** The uniqueness constraint of the column [session_token]. *)
Definition unique_tokens (db : Database) : Prop :=
  NoDup (tokens (verification_sessions db)).

(** ** Requests and reachable databases *)

Inductive Request : Type :=
  | Initiate (two_fa_client : Infobip2FAClient) (now_query : Z)
             (session_token : string) (now_expires now_created : Z)
             (order : OrderRequest.t)
  | Verify (two_fa_client : Infobip2FAClient) (now_query now_created now_updated : Z)
           (verification : VerificationRequest.t)
  | ResendCode (two_fa_client : Infobip2FAClient) (now_query now_expires : Z)
               (session_token : string)
  | UpdateStatus (order_id : Z) (status : OrderStatus) (credentials : string)
                 (now_query now_updated : Z)
  | Cancel (order_id : Z) (credentials : string) (now_query now_updated : Z).

(** The database after a request has been served. *)
Definition serve `{Platform} (r : Request) (db : Database) : Database :=
  match r with
  | Initiate c n tok ne nc order => fst (initiate_order c n tok ne nc order db)
  | Verify c n nc nu v => fst (verify_and_create_order c n nc nu v db)
  | ResendCode c n ne tok => fst (resend_verification_code c n ne tok db)
  | UpdateStatus id st cred n nu => fst (update_order_status id st cred n nu db)
  | Cancel id cred n nu => fst (cancel_order id cred n nu db)
  end.

Definition serve_all `{Platform} (requests : list Request) (db : Database) : Database :=
  foldl (λ db r, serve r db) db requests.

Definition empty_db : Database := mkDatabase [] [] 1 1.

Inductive reachable `{Platform} : Database → Prop :=
  | reachable_empty : reachable empty_db
  | reachable_serve r db : reachable db → reachable (serve r db).

(** Between two requests no stored session is verified, and every order
    is verified and in a state of the enumeration other than [PENDING]. *)
Definition unverified_sessions (db : Database) : Prop :=
  Forall (λ s, VerificationSession.verified s = false) (verification_sessions db).

Definition stored_order_ok (o : Order.t) : Prop :=
  Order.verified o = true
  ∧ ∃ st, st ≠ PENDING ∧ Order.order_status o = OrderStatus_value st.

Definition orders_ok (db : Database) : Prop := Forall stored_order_ok (orders db).

Record db_invariant (db : Database) : Prop := mk_db_invariant {
  inv_tokens : unique_tokens db;
  inv_unverified : unverified_sessions db;
  inv_orders : orders_ok db
}.

(** What the handlers keep true of every stored row: a session is
    unverified, has counted no negative number of attempts, and its order
    data carry its own phone number; an order has an identifier that the
    sequence has already passed, is verified, awaits payment, and is in a
    state of the enumeration other than [PENDING]. *)
Definition session_consistent (seq : Z) (s : VerificationSession.t) : Prop :=
  VerificationSession.id s < seq
  ∧ VerificationSession.verified s = false
  ∧ 0 ≤ VerificationSession.attempts s
  ∧ OrderData.phone_number (VerificationSession.order_data s)
    = VerificationSession.phone_number s.

Definition order_consistent (seq : Z) (o : Order.t) : Prop :=
  Order.id o < seq
  ∧ Order.verified o = true
  ∧ Order.payment_status o = "pending"
  ∧ ∃ st, st ≠ PENDING ∧ Order.order_status o = OrderStatus_value st.

Record db_consistent (db : Database) : Prop := mk_db_consistent {
  cons_tokens : NoDup (tokens (verification_sessions db));
  cons_session_ids : NoDup (VerificationSession.id <$> verification_sessions db);
  cons_order_ids : NoDup (Order.id <$> orders db);
  cons_sessions :
    Forall (session_consistent (verification_sessions_seq db)) (verification_sessions db);
  cons_orders : Forall (order_consistent (orders_seq db)) (orders db)
}.

(** The fields of an order that no handler writes after its creation. *)
Definition same_order_data (o o' : Order.t) : Prop :=
  Order.id o' = Order.id o
  ∧ Order.phone_number o' = Order.phone_number o
  ∧ Order.address o' = Order.address o
  ∧ Order.payment_method o' = Order.payment_method o
  ∧ Order.payment_status o' = Order.payment_status o
  ∧ Order.book_list o' = Order.book_list o
  ∧ Order.total_amount o' = Order.total_amount o
  ∧ Order.created_at o' = Order.created_at o
  ∧ Order.verified o' = Order.verified o.

(** ** Vocabulary of the properties *)

(** An order passes the filter of [get_orders]: there is none for an
    absent or empty phone number. *)
Definition phone_matches (phone_number : option string) (o : Order.t) : Prop :=
  match phone_number with
  | Some p => p = "" ∨ Order.phone_number o = p
  | None => True
  end.

Global Instance phone_matches_dec phone_number o :
  Decision (phone_matches phone_number o).
Proof. destruct phone_number; simpl; apply _. Defined.

(** The row after [session.attempts += 1]. *)
Definition attempt_counted (session : VerificationSession.t) : VerificationSession.t :=
  VerificationSession.set_attempts (VerificationSession.attempts session + 1) session.

(** The order built from the data of a session. *)
Definition order_of_session (id : Z) (session : VerificationSession.t) (total : Z)
    (now_created now_updated : Z) : Order.t :=
  let order_data := VerificationSession.order_data session in
  Order.mk id
    (OrderData.phone_number order_data) (OrderData.address order_data)
    (OrderData.payment_method order_data) "pending" (OrderData.books order_data)
    total (OrderStatus_value VERIFIED) now_created now_updated true.

(** The sessions created for a phone number after the instant [since]
    while a list of requests is served, one after the other, from [db]:
    every [initiate_order] that returned counts, whatever became of its
    session afterwards. *)
Fixpoint sessions_created `{Platform} (phone_number : string) (since : Z)
    (requests : list Request) (db : Database) : Z :=
  match requests with
  | [] => 0
  | r :: rest =>
      match r with
      | Initiate c n tok ne nc order =>
          match snd (initiate_order c n tok ne nc order db) with
          | Return _ =>
              if decide (OrderRequest.phone_number order = phone_number ∧ since < nc)
              then 1 else 0
          | Raise _ => 0
          end
      | _ => 0
      end + sessions_created phone_number since rest (serve r db)
  end.

(** The table of the interface: current state and allowed next states. *)
Definition transition_allowed (current requested : OrderStatus) : bool :=
  match current, requested with
  | VERIFIED, PROCESSING | VERIFIED, CANCELLED
  | PROCESSING, SHIPPED | PROCESSING, CANCELLED
  | SHIPPED, DELIVERED => true
  | _, _ => false
  end.

(** The states that the table leads to from a state, in any number of
    transitions. *)
Definition later_status (current next : OrderStatus) : bool :=
  match current, next with
  | VERIFIED, (VERIFIED | PROCESSING | SHIPPED | DELIVERED | CANCELLED)
  | PROCESSING, (PROCESSING | SHIPPED | DELIVERED | CANCELLED)
  | SHIPPED, (SHIPPED | DELIVERED)
  | DELIVERED, DELIVERED
  | CANCELLED, CANCELLED
  | PENDING, PENDING => true
  | _, _ => false
  end.

(** [z] is the integer part of a number: the number itself for an [int];
    for a finite [float] of sign [s], mantissa [m] and exponent [e], whose
    value is [m * 2 ^ e] with that sign, the integer of that sign whose
    magnitude [k] has [k ≤ m * 2 ^ e < k + 1], written without fractions.
    An infinity and a NaN have no integer part. *)
Definition integer_part (v : PyNum) (z : Z) : Prop :=
  match v with
  | PyInt n => z = n
  | PyFloat x =>
      match Prim2SF x with
      | S754_zero _ => z = 0
      | S754_finite s m e =>
          (if s then z ≤ 0 else 0 ≤ z)
          ∧ Z.abs z * 2 ^ Z.max 0 (- e) ≤ Z.pos m * 2 ^ Z.max 0 e
          ∧ Z.pos m * 2 ^ Z.max 0 e < (Z.abs z + 1) * 2 ^ Z.max 0 (- e)
      | S754_infinity _ | S754_nan => False
      end
  end.



(** ** Sample data *)

(** The platform of the samples: CPython up to 3.11, which adds from left
    to right, and an engine with 32-bit integers that draws from the
    sequence before it refuses an insert and lists the rows in the order
    of the table. *)
Definition sample_platform : Platform :=
  mkPlatform
    (λ xs, foldl PrimFloat.add 0%float xs)
    (- 2 ^ 31) (2 ^ 31 - 1)
    Z.succ Z.succ id
    Z.le_succ_diag_r Z.le_succ_diag_r (λ l, Permutation_refl l).

Section Samples.
#[local] Existing Instance sample_platform.

Definition sample_book : Book.t := Book.mk "978-0441013593" "Dune" 0.125%float 1.

Definition sample_request : OrderRequest.t :=
  OrderRequest.mk "+8801752304601" "12 Lake Road, Dhaka" BKASH [sample_book].

(** The request of a second customer, with another phone number. *)
Definition other_request : OrderRequest.t :=
  OrderRequest.mk "+8801911000000" "7 Park Street, Sylhet" NAGAD [sample_book].

(** A provider that sends the PIN ["PIN-1"], accepts the code ["1234"], and
    for any other code reports two attempts left. *)
Definition sample_client : Infobip2FAClient :=
  mkInfobip2FAClient
    (λ _, Response 200 (inr (mkSendPinResult (Some "PIN-1"))))
    (λ _ pin_code,
       if decide (pin_code = "1234")
       then Response 200 (inr (mkVerifyPinResult (Some true) None))
       else Response 200 (inr (mkVerifyPinResult (Some false) (Some 2)))).

(** A provider that sends the PIN ["PIN-2"] and accepts the code ["5678"]
    for it alone. *)
Definition second_pin_client : Infobip2FAClient :=
  mkInfobip2FAClient
    (λ _, Response 200 (inr (mkSendPinResult (Some "PIN-2"))))
    (λ pin_id pin_code,
       if decide (pin_id = "PIN-2" ∧ pin_code = "5678")
       then Response 200 (inr (mkVerifyPinResult (Some true) None))
       else Response 200 (inr (mkVerifyPinResult (Some false) (Some 2)))).

(** A provider that reports that no attempt is left. *)
Definition exhausted_client : Infobip2FAClient :=
  mkInfobip2FAClient
    (λ _, Response 200 (inr (mkSendPinResult (Some "PIN-1"))))
    (λ _ _, Response 200 (inr (mkVerifyPinResult (Some false) (Some 0)))).

(** A provider that cannot be reached, and one that answers without a
    PIN identifier. *)
Definition unreachable_client : Infobip2FAClient :=
  mkInfobip2FAClient
    (λ _, ConnectionFailed "[Errno 111] Connection refused")
    (λ _ _, ConnectionFailed "[Errno 111] Connection refused").

Definition no_pin_client : Infobip2FAClient :=
  mkInfobip2FAClient
    (λ _, Response 200 (inr (mkSendPinResult None)))
    (λ _ _, Response 500 (inl "Expecting value: line 1 column 1 (char 0)")).

(** The database after [sample_request] has been initiated on the empty
    one at instant 1000, with the token ["tok-1"]: one session, which
    expires at 600001000. *)
Definition sample_db : Database :=
  fst (initiate_order sample_client 1000 "tok-1" 1000 1000 sample_request empty_db).

Definition sample_session : VerificationSession.t :=
  VerificationSession.mk 1 "tok-1" "+8801752304601" "PIN-1" 0 false 600001000 1000
    (OrderData.mk "+8801752304601" "12 Lake Road, Dhaka" "bkash" [sample_book]
       (PyFloat 0.125%float)).

(** The order that the confirmation of [sample_session] at the instants
    2001 and 2002 creates, and the database after it. *)
Definition sample_order : Order.t :=
  Order.mk 1 "+8801752304601" "12 Lake Road, Dhaka" "bkash" "pending"
    [sample_book] 0 "verified" 2001 2002 true.

Definition confirmed_db : Database := mkDatabase [] [sample_order] 2 2.

(** [sample_request] initiated at the instant [t] with the token [tok],
    and its confirmation with the right code. *)
Definition sample_initiate (t : Z) (tok : string) : Request :=
  Initiate sample_client t tok t t sample_request.

Definition sample_confirm (t : Z) (tok : string) : Request :=
  Verify sample_client t t t (VerificationRequest.mk tok "1234").

(** Five orders initiated and confirmed within six milliseconds. *)
Definition five_orders : list Request :=
  [ sample_initiate 1000 "tok-1"; sample_confirm 1500 "tok-1";
    sample_initiate 2000 "tok-2"; sample_confirm 2500 "tok-2";
    sample_initiate 3000 "tok-3"; sample_confirm 3500 "tok-3";
    sample_initiate 4000 "tok-4"; sample_confirm 4500 "tok-4";
    sample_initiate 5000 "tok-5"; sample_confirm 5500 "tok-5" ].

(** Five orders initiated and left unconfirmed. *)
Definition five_pending : list Request :=
  [ sample_initiate 1000 "tok-1"; sample_initiate 2000 "tok-2";
    sample_initiate 3000 "tok-3"; sample_initiate 4000 "tok-4";
    sample_initiate 5000 "tok-5" ].

(** An order created and brought to [delivered]: the customer initiates
    and confirms an order, initiates a second one to hold a live token for
    the same number, and with it moves the first order along the chain. *)
Definition delivered_history : list Request :=
  [ sample_initiate 1000 "tok-1"; sample_confirm 1500 "tok-1";
    sample_initiate 2000 "tok-2";
    UpdateStatus 1 PROCESSING "tok-2" 3000 3001;
    UpdateStatus 1 SHIPPED "tok-2" 4000 4001;
    UpdateStatus 1 DELIVERED "tok-2" 5000 5001 ].

Definition delivered_db : Database := serve_all delivered_history empty_db.

(** The first customer's order is confirmed, then the second customer
    initiates one and so holds a live token for another number. *)
Definition foreign_history : list Request :=
  [ sample_initiate 1000 "tok-1"; sample_confirm 1500 "tok-1";
    Initiate sample_client 2000 "tok-9" 2000 2000 other_request ].

Definition foreign_db : Database := serve_all foreign_history empty_db.

End Samples.

(** * Properties *)

Section Properties.
Context `{platform : Platform}.

(** ** Unique tokens *)

Section Rows.
Implicit Types (l : list VerificationSession.t) (s : VerificationSession.t).

Lemma unique_tokens_index l i j s s' :
  NoDup (tokens l) →
  l !! i = Some s → l !! j = Some s' →
  VerificationSession.session_token s = VerificationSession.session_token s' →
  i = j.
Proof.
  intros Hnd Hi Hj Htok.
  apply (NoDup_lookup _ _ _ (VerificationSession.session_token s) Hnd).
  - by rewrite list_lookup_fmap, Hi.
  - rewrite list_lookup_fmap, Hj. simpl. by rewrite Htok.
Qed.

Lemma unique_tokens_row l s s' :
  NoDup (tokens l) → s ∈ l → s' ∈ l →
  VerificationSession.session_token s = VerificationSession.session_token s' →
  s = s'.
Proof.
  intros Hnd [i Hi]%list_elem_of_lookup [j Hj]%list_elem_of_lookup Htok.
  assert (i = j) as -> by eauto using unique_tokens_index.
  congruence.
Qed.

(** A session past its deadline is not found, whatever else it holds. *)
Lemma expired_not_found l s token now :
  NoDup (tokens l) → s ∈ l →
  VerificationSession.session_token s = token →
  VerificationSession.expires_at s ≤ now →
  list_find (live_token token now) l = None.
Proof.
  intros Hnd Hs Htok Hexp. apply list_find_None, Forall_forall.
  intros x Hx [Hxt Hlive].
  assert (x = s) as -> by (apply (unique_tokens_row l); congruence).
  lia.
Qed.

(** Once the row found for a token is deleted, the token finds nothing. *)
Lemma deleted_not_found l token now i s now' :
  NoDup (tokens l) →
  list_find (live_token token now) l = Some (i, s) →
  list_find (live_token token now') (delete i l) = None.
Proof.
  intros Hnd (Hi & [Htok _] & _)%list_find_Some.
  apply list_find_None, Forall_forall.
  intros x [j Hj]%list_elem_of_lookup [Hxt _].
  destruct (decide (j < i)%nat) as [Hlt|Hge].
  - rewrite list_lookup_delete_lt in Hj by done.
    assert (i = j) by (eapply unique_tokens_index; eauto; congruence). lia.
  - rewrite list_lookup_delete_ge in Hj by lia.
    assert (i = S j) by (eapply unique_tokens_index; eauto; congruence). lia.
Qed.

Lemma tokens_insert_same l i s s' :
  l !! i = Some s →
  VerificationSession.session_token s' = VerificationSession.session_token s →
  tokens (<[i := s']> l) = tokens l.
Proof.
  intros Hi Htok. rewrite list_fmap_insert, Htok.
  apply list_insert_id. by rewrite list_lookup_fmap, Hi.
Qed.

Lemma tokens_delete_NoDup l i : NoDup (tokens l) → NoDup (tokens (delete i l)).
Proof.
  intros Hnd. rewrite list_fmap_delete.
  eapply sublist_NoDup; [done | apply sublist_delete].
Qed.

Lemma delete_insert_row l i s : delete i (<[i := s]> l) = delete i l.
Proof.
  revert i. induction l as [|x l IH]; intros [|i]; simpl; try done.
  by rewrite IH.
Qed.

End Rows.

(** ** The invariant of the reachable databases *)

Section Invariant.

Lemma valid_transitions_not_PENDING cur st : st ∈ valid_transitions cur → st ≠ PENDING.
Proof.
  intros Hin ->.
  destruct cur; simpl in Hin;
    repeat (apply elem_of_cons in Hin as [?|Hin]; [done|]);
    by apply elem_of_nil in Hin.
Qed.

Lemma initiate_order_invariant c n tok ne nc order db :
  db_invariant db → db_invariant (fst (initiate_order c n tok ne nc order db)).
Proof.
  intros [Htok Hunv Hord]. unfold initiate_order.
  repeat case_match; simpl; try (by split).
  split; simpl; [| |done].
  - unfold unique_tokens in *. simpl. rewrite fmap_app. apply NoDup_app.
    split_and!; [done| |apply NoDup_singleton].
    intros x Hx. simpl. rewrite list_elem_of_singleton. by intros ->.
  - apply Forall_app. split; [done|]. by apply Forall_singleton.
Qed.

Lemma verify_and_create_order_invariant c n nc nu v db :
  db_invariant db → db_invariant (fst (verify_and_create_order c n nc nu v db)).
Proof.
  intros [Htok Hunv Hord]. unfold verify_and_create_order.
  destruct (list_find _ _) as [[i s]|] eqn:Hfind; [|by split].
  pose proof Hfind as (Hi & _ & _)%list_find_Some.
  repeat case_match; simpl; try (by split).
  - split; simpl.
    + unfold unique_tokens in *. simpl. rewrite delete_insert_row.
      by apply tokens_delete_NoDup.
    + unfold unverified_sessions in *. simpl. rewrite delete_insert_row.
      by apply Forall_delete.
    + done.
  - split; simpl; [| |done].
    + unfold unique_tokens in *. simpl. by erewrite tokens_insert_same.
    + apply Forall_insert; [done|]. simpl.
      by eapply Forall_lookup_1 in Hunv.
  - split; simpl.
    + unfold unique_tokens in *. simpl. rewrite delete_insert_row.
      by apply tokens_delete_NoDup.
    + unfold unverified_sessions in *. simpl. rewrite delete_insert_row.
      by apply Forall_delete.
    + apply Forall_app. split; [done|]. apply Forall_singleton.
      split; [done|]. by exists VERIFIED.
Qed.

Lemma resend_verification_code_invariant c n ne tok db :
  db_invariant db → db_invariant (fst (resend_verification_code c n ne tok db)).
Proof.
  intros [Htok Hunv Hord]. unfold resend_verification_code.
  destruct (list_find _ _) as [[i s]|] eqn:Hfind; [|by split].
  pose proof Hfind as (Hi & _ & _)%list_find_Some.
  repeat case_match; simpl; try (by split).
  split; simpl; [| |done].
  - unfold unique_tokens in *. simpl. by erewrite tokens_insert_same.
  - apply Forall_insert; [done|]. simpl.
    by eapply Forall_lookup_1 in Hunv.
Qed.

Lemma update_order_status_invariant id st cred n nu db :
  db_invariant db → db_invariant (fst (update_order_status id st cred n nu db)).
Proof.
  intros [Htok Hunv Hord]. unfold update_order_status.
  destruct (get_current_session _ _ _) as [session|]; [|by split].
  destruct (list_find _ _) as [[j o]|] eqn:Hfind; [|by case_match; split].
  pose proof Hfind as (Hj & _ & _)%list_find_Some.
  destruct (OrderStatus_of_value _) as [cur|]; [|by split].
  case_decide as Hin; [by case_match; split|].
  split; simpl; [done|done|].
  apply Forall_insert; [done|].
  eapply Forall_lookup_1 in Hord as [Hv _]; [|done].
  split; [done|]. exists st. eauto using valid_transitions_not_PENDING.
Qed.

Lemma cancel_order_invariant id cred n nu db :
  db_invariant db → db_invariant (fst (cancel_order id cred n nu db)).
Proof.
  intros [Htok Hunv Hord]. unfold cancel_order.
  destruct (get_current_session _ _ _) as [session|]; [|by split].
  destruct (list_find _ _) as [[j o]|] eqn:Hfind; [|by split].
  pose proof Hfind as (Hj & _ & _)%list_find_Some.
  case_decide; [by split|].
  split; simpl; [done|done|].
  apply Forall_insert; [done|].
  eapply Forall_lookup_1 in Hord as [Hv _]; [|done].
  split; [done|]. by exists CANCELLED.
Qed.

Lemma serve_invariant r db : db_invariant db → db_invariant (serve r db).
Proof.
  destruct r; simpl;
    auto using initiate_order_invariant, verify_and_create_order_invariant,
      resend_verification_code_invariant, update_order_status_invariant,
      cancel_order_invariant.
Qed.

Lemma reachable_invariant db : reachable db → db_invariant db.
Proof.
  induction 1 as [|r db _ IH]; [|by apply serve_invariant].
  split; [apply NoDup_nil_2 | apply Forall_nil_2 | apply Forall_nil_2].
Qed.

End Invariant.

(** ** Facts about the provider client *)

Lemma verify_pin_HTTPException c pin_id pin_code code detail :
  verify_pin c pin_id pin_code = Raise (HTTPException code detail) →
  code = status.HTTP_503_SERVICE_UNAVAILABLE.
Proof.
  unfold verify_pin. intros H.
  repeat case_match; simplify_eq; done.
Qed.

Lemma float_to_int_Raise x e :
  float_to_int x = Raise e → e = OverflowError ∨ e = ValueError.
Proof. unfold float_to_int. intros H. repeat case_match; simplify_eq; auto. Qed.

Lemma py_int_Raise v e : py_int v = Raise e → e = OverflowError ∨ e = ValueError.
Proof. destruct v; simpl; [done|]. apply float_to_int_Raise. Qed.

(** ** The sample database *)

(** ** Expired sessions *)

(** C7: a session whose [expires_at] has passed is not found by the query
    of [verify_and_create_order] nor by that of
    [resend_verification_code], although its row is still in the table:
    both fail with SessionInvalid (status 401 and 404), whatever the
    provider, the code and the other fields of the row are, and the
    database is left as it was. *)
Theorem expired_session_is_invalid
    (two_fa_client : Infobip2FAClient) (db : Database) (s : VerificationSession.t)
    (now now_created now_updated now_expires : Z) (pin_code : string) :
  unique_tokens db →
  s ∈ verification_sessions db →
  VerificationSession.expires_at s ≤ now →
  verify_and_create_order two_fa_client now now_created now_updated
    (VerificationRequest.mk (VerificationSession.session_token s) pin_code) db
  = (db, Raise (HTTPException status.HTTP_401_UNAUTHORIZED "Invalid or expired session"))
  ∧ resend_verification_code two_fa_client now now_expires
      (VerificationSession.session_token s) db
    = (db, Raise (HTTPException status.HTTP_404_NOT_FOUND "Session not found or expired"))
  ∧ SessionInvalid (HTTPException status.HTTP_401_UNAUTHORIZED "Invalid or expired session")
  ∧ SessionInvalid (HTTPException status.HTTP_404_NOT_FOUND "Session not found or expired").
Proof.
  intros Hnd Hs Hexp.
  assert (list_find (live_token (VerificationSession.session_token s) now)
            (verification_sessions db) = None) as Hnone
    by eauto using expired_not_found.
  unfold verify_and_create_order, resend_verification_code. simpl.
  rewrite Hnone. split_and!; [done|done|by left|by right].
Qed.

(** ** A code that the provider does not verify *)

(** C8: when the provider answers that the code is not verified, the
    attempt is counted on the row of the session; if the provider reports
    no attempt left, the row is then deleted and the handler fails with
    AttemptsExhausted, after which every confirmation with that token,
    whatever the code, fails with SessionInvalid and not with
    InvalidCode; otherwise the handler fails with InvalidCode, carrying
    the number of attempts that the provider reported. *)
Theorem unverified_code_is_counted
    (two_fa_client : Infobip2FAClient) (now now_created now_updated : Z)
    (verification : VerificationRequest.t) (db : Database)
    (i : nat) (session : VerificationSession.t) (verify_result : VerifyPinResult) :
  unique_tokens db →
  list_find (live_token (VerificationRequest.session_token verification) now)
    (verification_sessions db) = Some (i, session) →
  VerificationSession.verified session = false →
  verify_pin two_fa_client (VerificationSession.pin_id session)
    (VerificationRequest.pin_code verification) = Return verify_result →
  truthy (verified verify_result) = false →
  let counted :=
    <[i := VerificationSession.mk
             (VerificationSession.id session)
             (VerificationSession.session_token session)
             (VerificationSession.phone_number session)
             (VerificationSession.pin_id session)
             (VerificationSession.attempts session + 1)
             false
             (VerificationSession.expires_at session)
             (VerificationSession.created_at session)
             (VerificationSession.order_data session)]>
      (verification_sessions db) in
  let attempts_remaining := default 0 (attemptsRemaining verify_result) in
  let outcome :=
    verify_and_create_order two_fa_client now now_created now_updated verification db in
  (attempts_remaining = 0 →
     ∃ e,
       outcome
       = (mkDatabase (delete i counted) (orders db)
            (verification_sessions_seq db) (orders_seq db),
          Raise e)
       ∧ AttemptsExhausted e
       ∧ ∀ two_fa_client' now' now_created' now_updated' pin_code',
           ∃ e',
             verify_and_create_order two_fa_client' now' now_created' now_updated'
               (VerificationRequest.mk
                  (VerificationRequest.session_token verification) pin_code')
               (fst outcome)
             = (fst outcome, Raise e')
             ∧ SessionInvalid e' ∧ ∀ n, ¬ InvalidCode n e')
  ∧ (attempts_remaining ≠ 0 →
       ∃ e,
         outcome
         = (mkDatabase counted (orders db)
              (verification_sessions_seq db) (orders_seq db),
            Raise e)
         ∧ InvalidCode attempts_remaining e).
Proof.
  intros Hnd Hfind Hunv Hpin Hfalse counted attempts_remaining outcome.
  assert (outcome =
            if decide (attempts_remaining = 0) then
              (mkDatabase (delete i counted) (orders db)
                 (verification_sessions_seq db) (orders_seq db),
               Raise (HTTPException status.HTTP_403_FORBIDDEN
                        "Maximum verification attempts exceeded"))
            else
              (mkDatabase counted (orders db)
                 (verification_sessions_seq db) (orders_seq db),
               Raise (HTTPException status.HTTP_400_BAD_REQUEST
                        ("Invalid code. " +:+ pretty attempts_remaining
                         +:+ " attempts remaining.")))) as Hout.
  { subst outcome counted. unfold verify_and_create_order.
    rewrite Hfind, Hunv, Hpin, Hfalse.
    unfold VerificationSession.set_attempts. rewrite Hunv. reflexivity. }
  split; intros Hrem; rewrite Hout; case_decide; try done.
  - eexists. split_and!; [done|done|].
    intros c' now' nc' nu' pin'. eexists. simpl.
    unfold verify_and_create_order at 1. simpl.
    subst counted. rewrite delete_insert_row.
    erewrite deleted_not_found by eauto.
    split_and!; [done|by left|].
    intros n Hn. unfold InvalidCode in Hn. by simplify_eq.
  - eexists. by split.
Qed.

(** C10: when [verify_and_create_order] fails with InvalidCode, the new
    database is the old one with one more attempt counted on the row of
    the session: that row keeps its token, phone number, PIN identifier,
    verified flag, deadline, creation time and order data, every other
    row is as it was, and the table of orders and both sequences are
    unchanged. *)
Theorem invalid_code_counts_one_attempt
    (two_fa_client : Infobip2FAClient) (now now_created now_updated : Z)
    (verification : VerificationRequest.t) (db db' : Database)
    (e : Exception) (n : Z) :
  verify_and_create_order two_fa_client now now_created now_updated verification db
  = (db', Raise e) →
  InvalidCode n e →
  ∃ i session session',
    list_find (live_token (VerificationRequest.session_token verification) now)
      (verification_sessions db) = Some (i, session)
    ∧ verification_sessions db' = <[i := session']> (verification_sessions db)
    ∧ VerificationSession.attempts session' = VerificationSession.attempts session + 1
    ∧ VerificationSession.id session' = VerificationSession.id session
    ∧ VerificationSession.session_token session' = VerificationSession.session_token session
    ∧ VerificationSession.phone_number session' = VerificationSession.phone_number session
    ∧ VerificationSession.pin_id session' = VerificationSession.pin_id session
    ∧ VerificationSession.verified session' = VerificationSession.verified session
    ∧ VerificationSession.expires_at session' = VerificationSession.expires_at session
    ∧ VerificationSession.created_at session' = VerificationSession.created_at session
    ∧ VerificationSession.order_data session' = VerificationSession.order_data session
    ∧ (∀ j, j ≠ i → verification_sessions db' !! j = verification_sessions db !! j)
    ∧ orders db' = orders db
    ∧ verification_sessions_seq db' = verification_sessions_seq db
    ∧ orders_seq db' = orders_seq db.
Proof.
  unfold verify_and_create_order, InvalidCode. intros Hrun He.
  destruct (list_find _ _) as [[i session]|] eqn:Hfind; [|by simplify_eq].
  destruct (VerificationSession.verified session) eqn:Hver; [by simplify_eq|].
  destruct (verify_pin _ _ _) as [verify_result|e0] eqn:Hpin.
  - destruct (negb (truthy (verified verify_result))).
    + case_decide; [by simplify_eq|].
      injection Hrun as <- <-.
      exists i, session, (attempt_counted session). simpl.
      split_and!; try done.
      intros j Hj. by apply list_lookup_insert_ne.
    + destruct (py_int _) as [total|e1] eqn:Hint.
      * case_decide; by simplify_eq.
      * apply py_int_Raise in Hint. injection Hrun as <- <-.
        destruct Hint; by simplify_eq.
  - destruct e0 as [code detail| | | | | |message|message]; try by simplify_eq.
    apply verify_pin_HTTPException in Hpin. by simplify_eq.
Qed.

(** ** Failures of the provider *)

(** The provider call of [send_pin] fails when the connection fails, when
    the status is 400 or more, or when the body is not JSON. *)
Lemma send_pin_Raise two_fa_client phone_number :
  (∃ e, send_pin two_fa_client phone_number = Raise e)
  ↔ (∃ message,
       post_pin two_fa_client (remove_plus phone_number) = ConnectionFailed message)
    ∨ ∃ st data, post_pin two_fa_client (remove_plus phone_number) = Response st data
                 ∧ (400 ≤ st ∨ ∃ message, data = inl message).
Proof.
  unfold send_pin. split.
  - intros [e He]. destruct (post_pin _ _) as [message|st data]; [left; by eexists|right].
    exists st, data. split; [done|].
    case_decide; [by left|]. destruct data; [right; by eexists|done].
  - intros [[message ->]|(st & data & -> & Hbad)]; [by eexists|].
    case_decide; [by eexists|].
    destruct Hbad as [?|[message ->]]; [lia|by eexists].
Qed.

(** C6: when the call of the provider in [initiate_order] fails, or its
    answer has no PIN identifier, the handler fails with
    ProviderUnavailable and the database is as before, so no session is
    created; when the call of the provider in [verify_and_create_order]
    fails, the handler fails with ProviderUnavailable and the database is
    as before, so the session is still found by the same query, with its
    attempts as they were. *)
Theorem provider_failure_changes_nothing
    (two_fa_client : Infobip2FAClient)
    (now_query : Z) (session_token : string) (now_expires now_created : Z)
    (order : OrderRequest.t)
    (now now_created' now_updated : Z) (verification : VerificationRequest.t)
    (db : Database) (i : nat) (session : VerificationSession.t) :
  (recent_sessions (OrderRequest.phone_number order) now_query db < 5 →
   (∃ total, total_amount (OrderRequest.books order) = Return total) →
   ((∃ e, send_pin two_fa_client (OrderRequest.phone_number order) = Raise e)
    ∨ (∃ sms_result,
         send_pin two_fa_client (OrderRequest.phone_number order) = Return sms_result
         ∧ (pinId sms_result = None ∨ pinId sms_result = Some ""))) →
   ∃ e,
     initiate_order two_fa_client now_query session_token now_expires now_created order db
     = (db, Raise e)
     ∧ ProviderUnavailable e)
  ∧ (list_find (live_token (VerificationRequest.session_token verification) now)
       (verification_sessions db) = Some (i, session) →
     VerificationSession.verified session = false →
     (∃ e, verify_pin two_fa_client (VerificationSession.pin_id session)
             (VerificationRequest.pin_code verification) = Raise e) →
     ∃ e,
       verify_and_create_order two_fa_client now now_created' now_updated verification db
       = (db, Raise e)
       ∧ ProviderUnavailable e).
Proof.
  split.
  - intros Hrate [total Htotal] Hfail. unfold initiate_order.
    case_decide; [lia|]. rewrite Htotal.
    assert (∃ e, send_otp two_fa_client (OrderRequest.phone_number order) = Raise e)
      as [e He].
    { unfold send_otp.
      destruct Hfail as [[e ->]|(sms_result & -> & [-> | ->])]; by eexists. }
    rewrite He. eexists. split; [done|]. by eexists.
  - intros Hfind Hunv [e He]. unfold verify_and_create_order.
    rewrite Hfind, Hunv, He.
    destruct e as [code detail| | | | | |message|message];
      try (eexists; split; [done|by eexists]).
    apply verify_pin_HTTPException in He as ->.
    eexists; split; [done|by eexists].
Qed.

(** ** Confirming twice *)

(** What a successful confirmation does to the database: the row found
    for the token is deleted and one order, built from its data, is
    appended. *)
Lemma verify_and_create_order_Return
    two_fa_client now now_created now_updated verification db db' response :
  verify_and_create_order two_fa_client now now_created now_updated verification db
  = (db', Return response) →
  ∃ i session total,
    list_find (live_token (VerificationRequest.session_token verification) now)
      (verification_sessions db) = Some (i, session)
    ∧ VerificationSession.verified session = false
    ∧ py_int (OrderData.total_amount (VerificationSession.order_data session))
      = Return total
    ∧ INTEGER_min ≤ total ≤ INTEGER_max
    ∧ db' = mkDatabase (delete i (verification_sessions db))
              (orders db ++ [order_of_session (orders_seq db) session total
                               now_created now_updated])
              (verification_sessions_seq db) (orders_seq db + 1)
    ∧ OrderResponse.id response = orders_seq db
    ∧ OrderResponse.total_amount response = total
    ∧ OrderResponse.order_status response = OrderStatus_value VERIFIED
    ∧ OrderResponse.verified response = true.
Proof.
  unfold verify_and_create_order. intros Hrun.
  destruct (list_find _ _) as [[i session]|] eqn:Hfind; [|by simplify_eq].
  destruct (VerificationSession.verified session) eqn:Hver; [by simplify_eq|].
  destruct (verify_pin _ _ _) as [verify_result|e0];
    [|by destruct e0; simplify_eq].
  destruct (negb _); [by case_decide; simplify_eq|].
  simpl in Hrun.
  destruct (py_int _) as [total|] eqn:Hint; [|by simplify_eq].
  case_decide as Hrange; [by simplify_eq|].
  injection Hrun as <- <-. exists i, session, total.
  simpl. rewrite delete_insert_row. split_and!; try done; lia.
Qed.

(** C1, amended: after a confirmation has succeeded, the table of orders
    holds exactly one more order, built from the data of the session, and
    every later confirmation with the same token, whatever the code, the
    provider and the instant, fails with SessionInvalid (status 401) and
    leaves the database, hence that single order, as it is. *)
Theorem second_confirm_is_SessionInvalid
    (two_fa_client : Infobip2FAClient) (now now_created now_updated : Z)
    (verification : VerificationRequest.t) (db db' : Database)
    (response : OrderResponse.t) :
  unique_tokens db →
  verify_and_create_order two_fa_client now now_created now_updated verification db
  = (db', Return response) →
  (∃ i session total,
     list_find (live_token (VerificationRequest.session_token verification) now)
       (verification_sessions db) = Some (i, session)
     ∧ orders db' = orders db ++ [order_of_session (orders_seq db) session total
                                    now_created now_updated]
     ∧ OrderResponse.id response = orders_seq db)
  ∧ ∀ two_fa_client' now' now_created' now_updated' pin_code',
      verify_and_create_order two_fa_client' now' now_created' now_updated'
        (VerificationRequest.mk (VerificationRequest.session_token verification) pin_code')
        db'
      = (db', Raise (HTTPException status.HTTP_401_UNAUTHORIZED
                       "Invalid or expired session"))
      ∧ SessionInvalid (HTTPException status.HTTP_401_UNAUTHORIZED
                          "Invalid or expired session").
Proof.
  intros Hnd Hrun.
  apply verify_and_create_order_Return in Hrun
    as (i & session & total & Hfind & _ & _ & _ & -> & Hid & _).
  split; [by exists i, session, total|].
  intros c' now' nc' nu' pin'. split; [|by left].
  unfold verify_and_create_order. simpl.
  by erewrite deleted_not_found by eauto.
Qed.

(** In a reachable database no stored session is verified, so a
    confirmation never fails with AlreadyConsumed there. *)
Lemma reachable_never_AlreadyConsumed
    two_fa_client now now_created now_updated verification db db' e :
  reachable db →
  verify_and_create_order two_fa_client now now_created now_updated verification db
  = (db', Raise e) →
  ¬ AlreadyConsumed e.
Proof.
  intros [_ Hunv _]%reachable_invariant Hrun Hcons.
  unfold verify_and_create_order, AlreadyConsumed in *.
  destruct (list_find _ _) as [[i session]|] eqn:Hfind; [|by simplify_eq].
  pose proof Hfind as (Hi & _)%list_find_Some.
  eapply Forall_lookup_1 in Hunv; [|done]. simpl in Hunv. rewrite Hunv in Hrun.
  destruct (verify_pin _ _ _) as [verify_result|e0] eqn:Hpin.
  - destruct (negb _).
    + case_decide; by simplify_eq.
    + destruct (py_int _) eqn:Hint.
      * case_decide; by simplify_eq.
      * apply py_int_Raise in Hint. destruct Hint; by simplify_eq.
  - destruct e0; try by simplify_eq.
    apply verify_pin_HTTPException in Hpin. by simplify_eq.
Qed.

(** ** The rate limit *)

Lemma int_to_float_Raise z e : int_to_float z = Raise e → e = OverflowError.
Proof. unfold int_to_float. intros H. by repeat case_match; simplify_eq. Qed.

Lemma products_Raise books e : products books = Raise e → e = OverflowError.
Proof.
  induction books as [|book rest IH]; simpl; [done|].
  unfold float_mul_int.
  destruct (int_to_float _) eqn:Hconv;
    [|intros; simplify_eq; by apply int_to_float_Raise in Hconv].
  destruct (products rest); [done|].
  intros; simplify_eq. by apply IH.
Qed.

Lemma total_amount_Raise books e : total_amount books = Raise e → e = OverflowError.
Proof.
  unfold total_amount. destruct (products books) eqn:Hp; [done|].
  intros; simplify_eq. by apply products_Raise in Hp.
Qed.

(** C4, amended: [initiate_order] fails with RateLimited exactly when at
    least five rows of the table of sessions have the phone number of the
    request and were created less than one hour before the instant of the
    query; a row counts whether its session is live or expired, and a
    deleted session counts no more. *)
Theorem rate_limit_counts_stored_sessions
    (two_fa_client : Infobip2FAClient)
    (now_query : Z) (session_token : string) (now_expires now_created : Z)
    (order : OrderRequest.t) (db : Database) :
  (∃ e, snd (initiate_order two_fa_client now_query session_token now_expires
               now_created order db) = Raise e
        ∧ RateLimited e)
  ↔ 5 ≤ Z.of_nat (length (filter
                   (λ s, VerificationSession.phone_number s = OrderRequest.phone_number order
                         ∧ now_query - timedelta_hours 1 < VerificationSession.created_at s)
                   (verification_sessions db))).
Proof.
  change (Z.of_nat _) with (recent_sessions (OrderRequest.phone_number order) now_query db).
  unfold initiate_order, RateLimited. split.
  - intros (e & Hrun & ->). case_decide as Hrate; [done|]. exfalso.
    destruct (total_amount _) as [total|e0] eqn:Htotal; simpl in Hrun.
    + destruct (send_otp _ _); simpl in Hrun; [|by simplify_eq].
      case_decide; simpl in Hrun; by simplify_eq.
    + apply total_amount_Raise in Htotal. by simplify_eq.
  - intros Hrate. case_decide; [|done]. by eexists.
Qed.

(** Deleting a counted row lowers the count by one. *)
Lemma recent_sessions_delete phone_number now db i s :
  verification_sessions db !! i = Some s →
  recent phone_number now s →
  recent_sessions phone_number now (with_sessions (delete i (verification_sessions db)) db)
  = recent_sessions phone_number now db - 1.
Proof.
  unfold recent_sessions. simpl. generalize (verification_sessions db) as l.
  intros l. revert i. induction l as [|x l IH]; intros [|i] Hi Hrec; simplify_eq/=.
  - rewrite filter_cons_True by done. simpl. lia.
  - specialize (IH i Hi Hrec).
    destruct (decide (recent phone_number now x)).
    + rewrite !filter_cons_True by done. simpl. lia.
    + rewrite !filter_cons_False by done. done.
Qed.

(** ** Totals *)

Lemma int_to_float_0 : int_to_float 0 = Return 0%float.
Proof. vm_compute. reflexivity. Qed.



(** [int] returns the integer part, and raises when there is none. *)
Lemma py_int_integer_part v z : py_int v = Return z ↔ integer_part v z.
Proof.
  assert (∀ z0, py_int v = Return z0 → integer_part v z0) as Hpart.
  { intros z0. destruct v as [n|x]; simpl; [by intros; simplify_eq|].
    unfold float_to_int. destruct (Prim2SF x) as [?|?| |s m e]; try done.
    - by intros; simplify_eq.
    - intros Hz. simplify_eq.
      destruct (Z.leb_spec 0 e) as [He|He].
      + rewrite Z.shiftl_mul_pow2 by done.
        rewrite (Z.max_l 0 (- e)), (Z.max_r 0 e) by lia.
        assert (0 < 2 ^ e) by (apply Z.pow_pos_nonneg; lia).
        destruct s; split_and!; lia.
      + rewrite Z.shiftr_div_pow2 by lia.
        rewrite (Z.max_r 0 (- e)), (Z.max_l 0 e) by lia.
        assert (0 < 2 ^ (- e)) as Hpow by (apply Z.pow_pos_nonneg; lia).
        pose proof (Z.div_pos (Z.pos m) (2 ^ (- e)) ltac:(lia) Hpow).
        pose proof (Z.mul_div_le (Z.pos m) (2 ^ (- e)) Hpow).
        pose proof (Z.mul_succ_div_gt (Z.pos m) (2 ^ (- e)) Hpow).
        destruct s; split_and!; lia. }
  split; [apply Hpart|].
  intros Hz. destruct (py_int v) as [z0|e0] eqn:Hint.
  - specialize (Hpart z0 eq_refl). f_equal.
    destruct v as [n|x]; simpl in *; [congruence|].
    destruct (Prim2SF x) as [?|?| |s m e]; try done; [congruence|].
    destruct Hz as (Hs & Hlo & Hhi), Hpart as (Hs0 & Hlo0 & Hhi0).
    assert (0 < 2 ^ Z.max 0 (- e)) by (apply Z.pow_pos_nonneg; lia).
    assert (Z.abs z0 = Z.abs z) by nia.
    destruct s; lia.
  - exfalso. destruct v as [n|x]; simpl in *; [done|].
    unfold float_to_int in Hint. by destruct (Prim2SF x).
Qed.

(** A valid list of books has a [float] total. *)
Lemma total_amount_of_valid_books books total :
  validate_books books = Return books →
  total_amount books = Return total →
  ∃ x, total = PyFloat x.
Proof.
  destruct books as [|book rest]; [done|]. intros _.
  unfold total_amount. simpl.
  destruct (float_mul_int _ _); [|done].
  destruct (products rest); [|done].
  intros. simplify_eq. by eexists.
Qed.

Section NewSession.
Implicit Types (l : list VerificationSession.t) (s : VerificationSession.t).

(** The row appended for a token that was not in the table is the one
    that the token finds, as long as its deadline has not passed. *)
Lemma list_find_new_session l s now :
  VerificationSession.session_token s ∉ tokens l →
  now < VerificationSession.expires_at s →
  list_find (live_token (VerificationSession.session_token s) now) (l ++ [s])
  = Some (length l, s).
Proof.
  intros Hfresh Hlive. apply list_find_Some. split_and!.
  - by rewrite lookup_app_r, Nat.sub_diag.
  - by split.
  - intros j x Hj Hlt [Htok _]. apply Hfresh.
    rewrite lookup_app_l in Hj by done.
    rewrite <- Htok. apply list_elem_of_fmap_2. by eapply list_elem_of_lookup_2.
Qed.


End NewSession.

(** What a returning [initiate_order] has done: one row appended for the
    token, with no attempt, unverified, and the total of the books in its
    order data and in the response. *)
Lemma initiate_order_Return
    two_fa_client now_query session_token now_expires now_created order db db' response :
  initiate_order two_fa_client now_query session_token now_expires now_created order db
  = (db', Return response) →
  ∃ pin_id total,
    send_otp two_fa_client (OrderRequest.phone_number order) = Return pin_id
    ∧ total_amount (OrderRequest.books order) = Return total
    ∧ (session_token ∉ tokens (verification_sessions db))
    ∧ response = InitiateResponse.mk "Verification code sent to your phone"
                   session_token 600 total
    ∧ db' = mkDatabase
              (verification_sessions db ++
                 [VerificationSession.mk (verification_sessions_seq db) session_token
                    (OrderRequest.phone_number order) pin_id 0 false
                    (now_expires + timedelta_minutes 10) now_created
                    (OrderData.mk (OrderRequest.phone_number order)
                       (OrderRequest.address order)
                       (PaymentMethod_value (OrderRequest.payment_method order))
                       (OrderRequest.books order) total)])
              (orders db) (verification_sessions_seq db + 1) (orders_seq db).
Proof.
  unfold initiate_order. intros Hrun.
  case_decide; [by simplify_eq|].
  destruct (total_amount _) as [total|]; [|by simplify_eq].
  destruct (send_otp _ _) as [pin_id|]; [|by simplify_eq].
  case_decide; [by simplify_eq|].
  injection Hrun as <- <-. by exists pin_id, total.
Qed.


(** ** The order status machine *)

Lemma valid_transitions_table current requested :
  requested ∈ valid_transitions current ↔ transition_allowed current requested = true.
Proof.
  split.
  - intros Hin.
    destruct current; simpl in Hin;
      repeat (apply elem_of_cons in Hin as [->|Hin]; [done|]);
      by apply elem_of_nil in Hin.
  - destruct current, requested; simpl; intros H; try done;
      repeat first [apply list_elem_of_here | apply list_elem_of_further].
Qed.

Lemma OrderStatus_of_value_value st : OrderStatus_of_value (OrderStatus_value st) = Return st.
Proof. by destruct st. Qed.

Lemma OrderStatus_getattr_status_code st attr :
  attr = "HTTP_404_NOT_FOUND" ∨ attr = "HTTP_400_BAD_REQUEST" →
  OrderStatus_getattr st attr = Raise AttributeError.
Proof. by intros [-> | ->]. Qed.

(** With a live session and an order of its phone number in the state
    [current], [update_order_status] writes the requested state exactly
    when the table allows the transition; when it does not, the lookup of
    the status code on the parameter [status] raises, and the database is
    left as it was. *)
Lemma update_order_status_found
    order_id requested credentials now now_updated db session j order current :
  get_current_session credentials now db = Return session →
  list_find (owned_order order_id session) (orders db) = Some (j, order) →
  Order.order_status order = OrderStatus_value current →
  update_order_status order_id requested credentials now now_updated db
  = if transition_allowed current requested then
      (with_orders
         (<[j := Order.set_order_status (OrderStatus_value requested) now_updated order]>
            (orders db)) db,
       Return ("Order status updated to " +:+ OrderStatus_value requested))
    else (db, Raise AttributeError).
Proof.
  intros Hsession Hfind Hstatus. unfold update_order_status.
  rewrite Hsession, Hfind, Hstatus, OrderStatus_of_value_value.
  destruct (transition_allowed current requested) eqn:Hallowed.
  - apply valid_transitions_table in Hallowed. by case_decide.
  - case_decide as Hin; [|by apply valid_transitions_table in Hin; congruence].
    rewrite OrderStatus_getattr_status_code by auto. done.
Qed.

Lemma shipped_or_delivered current :
  OrderStatus_value current ∈ [OrderStatus_value SHIPPED; OrderStatus_value DELIVERED]
  ↔ current = SHIPPED ∨ current = DELIVERED.
Proof.
  split.
  - intros Hin.
    destruct current; simpl in Hin; auto;
      repeat (apply elem_of_cons in Hin as [?|Hin]; [done|]);
      by apply elem_of_nil in Hin.
  - intros [-> | ->]; simpl;
      repeat first [apply list_elem_of_here | apply list_elem_of_further].
Qed.

(** With a live session and an order of its phone number, [cancel_order]
    is rejected exactly when the order is shipped or delivered. *)
Lemma cancel_order_found
    order_id credentials now now_updated db session j order current :
  get_current_session credentials now db = Return session →
  list_find (owned_order order_id session) (orders db) = Some (j, order) →
  Order.order_status order = OrderStatus_value current →
  cancel_order order_id credentials now now_updated db
  = if decide (current = SHIPPED ∨ current = DELIVERED) then
      (db, Raise (HTTPException status.HTTP_400_BAD_REQUEST
                    "Cannot cancel shipped or delivered orders"))
    else
      (with_orders
         (<[j := Order.set_order_status (OrderStatus_value CANCELLED) now_updated order]>
            (orders db)) db,
       Return "Order cancelled successfully").
Proof.
  intros Hsession Hfind Hstatus. unfold cancel_order.
  rewrite Hsession, Hfind, Hstatus.
  pose proof (shipped_or_delivered current) as Hiff.
  do 2 case_decide; tauto.
Qed.

(** ** Authorization of the mutations *)

Lemma get_current_session_Return credentials now db session :
  get_current_session credentials now db = Return session →
  session ∈ verification_sessions db
  ∧ VerificationSession.session_token session = credentials
  ∧ now < VerificationSession.expires_at session.
Proof.
  unfold get_current_session.
  destruct (list_find _ _) as [[i s]|] eqn:Hfind; [|done].
  intros [= ->]. apply list_find_Some in Hfind as (Hi & [Htok Hlive] & _).
  split_and!; [by eapply list_elem_of_lookup_2|done|done].
Qed.

(** A mutation of an order returns only for a token that finds a session
    whose deadline is still ahead and whose phone number is that of the
    order; then that order alone is rewritten, in its status and update
    time.  A mutation that raises leaves the database as it was. *)
Lemma update_order_status_authorized
    order_id requested credentials now now_updated db db' r :
  update_order_status order_id requested credentials now now_updated db = (db', r) →
  match r with
  | Return _ =>
      ∃ session j order,
        session ∈ verification_sessions db
        ∧ VerificationSession.session_token session = credentials
        ∧ now < VerificationSession.expires_at session
        ∧ orders db !! j = Some order
        ∧ Order.id order = order_id
        ∧ Order.phone_number order = VerificationSession.phone_number session
        ∧ db' = with_orders
                  (<[j := Order.set_order_status (OrderStatus_value requested)
                            now_updated order]> (orders db)) db
  | Raise _ => db' = db
  end.
Proof.
  unfold update_order_status. intros Hrun.
  destruct (get_current_session _ _ _) as [session|] eqn:Hsession; [|by simplify_eq].
  apply get_current_session_Return in Hsession as (Hs & Htok & Hlive).
  destruct (list_find _ _) as [[j order]|] eqn:Hfind;
    [|by case_match; simplify_eq].
  apply list_find_Some in Hfind as (Hj & [Hid Hphone] & _).
  destruct (OrderStatus_of_value _); [|by simplify_eq].
  case_decide; [by case_match; simplify_eq|].
  injection Hrun as <- <-. by exists session, j, order.
Qed.

Lemma cancel_order_authorized order_id credentials now now_updated db db' r :
  cancel_order order_id credentials now now_updated db = (db', r) →
  match r with
  | Return _ =>
      ∃ session j order,
        session ∈ verification_sessions db
        ∧ VerificationSession.session_token session = credentials
        ∧ now < VerificationSession.expires_at session
        ∧ orders db !! j = Some order
        ∧ Order.id order = order_id
        ∧ Order.phone_number order = VerificationSession.phone_number session
        ∧ db' = with_orders
                  (<[j := Order.set_order_status (OrderStatus_value CANCELLED)
                            now_updated order]> (orders db)) db
  | Raise e =>
      db' = db
      ∧ (SessionInvalid e ∨ NotFoundOrUnauthorized e
         ∨ e = HTTPException status.HTTP_400_BAD_REQUEST
                 "Cannot cancel shipped or delivered orders")
  end.
Proof.
  unfold cancel_order, get_current_session. intros Hrun.
  destruct (list_find _ (verification_sessions db)) as [[i session]|] eqn:Hsession.
  - apply list_find_Some in Hsession as (Hi & [Htok Hlive] & _).
    destruct (list_find _ (orders db)) as [[j order]|] eqn:Hfind.
    + apply list_find_Some in Hfind as (Hj & [Hid Hphone] & _).
      case_decide; injection Hrun as <- <-; [by auto|].
      exists session, j, order.
      split_and!; [by eapply list_elem_of_lookup_2|done..].
    + injection Hrun as <- <-. split; [done|]. right. by left.
  - injection Hrun as <- <-. split; [done|]. left. by left.
Qed.

(** ** Consistency of the reachable databases *)

Section Consistency.
Context {A B : Type} (f : A → B).
Implicit Types (l : list A).

Lemma fmap_insert_same l i x y :
  l !! i = Some x → f y = f x → f <$> <[i := y]> l = f <$> l.
Proof.
  intros Hi Hf. rewrite list_fmap_insert, Hf.
  apply list_insert_id. by rewrite list_lookup_fmap, Hi.
Qed.

Lemma NoDup_fmap_delete l i : NoDup (f <$> l) → NoDup (f <$> delete i l).
Proof.
  intros Hnd. rewrite list_fmap_delete.
  eapply sublist_NoDup; [done | apply sublist_delete].
Qed.

Lemma NoDup_fmap_snoc l x :
  NoDup (f <$> l) → f x ∉ f <$> l → NoDup (f <$> (l ++ [x])).
Proof.
  intros Hnd Hfresh. rewrite fmap_app. apply NoDup_app.
  split_and!; [done| |apply NoDup_singleton].
  intros y Hy. simpl. rewrite list_elem_of_singleton. by intros ->.
Qed.

End Consistency.

Lemma session_consistent_mono seq seq' s :
  seq ≤ seq' → session_consistent seq s → session_consistent seq' s.
Proof. unfold session_consistent. intros ? (? & ? & ? & ?). split_and!; [lia|done..]. Qed.

Lemma order_consistent_mono seq seq' o :
  seq ≤ seq' → order_consistent seq o → order_consistent seq' o.
Proof. unfold order_consistent. intros ? (? & ? & ? & ?). split_and!; [lia|done..]. Qed.

Lemma fresh_session_id db s :
  Forall (session_consistent (verification_sessions_seq db)) (verification_sessions db) →
  VerificationSession.id s = verification_sessions_seq db →
  VerificationSession.id s ∉ VerificationSession.id <$> verification_sessions db.
Proof.
  intros Hall Hid (x & Hx & Hin)%list_elem_of_fmap.
  eapply Forall_forall in Hall as [Hlt _]; [|done]. lia.
Qed.

Lemma fresh_order_id db o :
  Forall (order_consistent (orders_seq db)) (orders db) →
  Order.id o = orders_seq db →
  Order.id o ∉ Order.id <$> orders db.
Proof.
  intros Hall Hid (x & Hx & Hin)%list_elem_of_fmap.
  eapply Forall_forall in Hall as [Hlt _]; [|done]. lia.
Qed.

Lemma initiate_order_consistent c n tok ne nc order db :
  db_consistent db → db_consistent (fst (initiate_order c n tok ne nc order db)).
Proof.
  intros [Htok Hsid Hoid Hs Ho]. unfold initiate_order.
  repeat case_match; simpl; try (by split);
    try (by split; simpl; [done..| |done];
            eapply Forall_impl; [done|]; intros ?;
            apply session_consistent_mono, sequence_after_duplicate_le).
  split; simpl; [| | done | | done].
  - by apply NoDup_fmap_snoc.
  - apply NoDup_fmap_snoc; [done|]. by apply fresh_session_id.
  - apply Forall_app. split.
    + eapply Forall_impl; [done|]. intros s. apply session_consistent_mono. lia.
    + apply Forall_singleton. unfold session_consistent. simpl. split_and!; [lia|done..].
Qed.

Lemma verify_and_create_order_consistent c n nc nu v db :
  db_consistent db → db_consistent (fst (verify_and_create_order c n nc nu v db)).
Proof.
  intros [Htok Hsid Hoid Hs Ho]. unfold verify_and_create_order.
  destruct (list_find _ _) as [[i s]|] eqn:Hfind; [|by split].
  pose proof Hfind as (Hi & _ & _)%list_find_Some.
  pose proof (Forall_lookup_1 _ _ _ _ Hs Hi) as (Hid & Hunv & Hatt & Hphone).
  repeat case_match; simpl; try (by split);
    try (by split; simpl; [done..|];
            eapply Forall_impl; [done|]; intros ?;
            apply order_consistent_mono, sequence_after_overflow_le).
  - split; simpl; rewrite ?delete_insert_row;
      auto using NoDup_fmap_delete, Forall_delete.
  - split; simpl; [| |done| |done].
    + by erewrite fmap_insert_same.
    + by erewrite fmap_insert_same.
    + apply Forall_insert; [done|]. unfold session_consistent. simpl.
      split_and!; [done|done|lia|done].
  - split; simpl; rewrite ?delete_insert_row;
      auto using NoDup_fmap_delete, Forall_delete.
    + apply NoDup_fmap_snoc; [done|]. by apply fresh_order_id.
    + apply Forall_app. split.
      * eapply Forall_impl; [done|]. intros o. apply order_consistent_mono. lia.
      * apply Forall_singleton. unfold order_consistent. simpl.
        split_and!; [lia|done|done|]. by exists VERIFIED.
Qed.

Lemma resend_verification_code_consistent c n ne tok db :
  db_consistent db → db_consistent (fst (resend_verification_code c n ne tok db)).
Proof.
  intros [Htok Hsid Hoid Hs Ho]. unfold resend_verification_code.
  destruct (list_find _ _) as [[i s]|] eqn:Hfind; [|by split].
  pose proof Hfind as (Hi & _ & _)%list_find_Some.
  pose proof (Forall_lookup_1 _ _ _ _ Hs Hi) as (Hid & Hunv & Hatt & Hphone).
  repeat case_match; simpl; try (by split).
  split; simpl; [| |done| |done].
  - by erewrite fmap_insert_same.
  - by erewrite fmap_insert_same.
  - apply Forall_insert; [done|]. unfold session_consistent. simpl.
    split_and!; [done|done|lia|done].
Qed.

Lemma update_order_status_consistent id st cred n nu db :
  db_consistent db → db_consistent (fst (update_order_status id st cred n nu db)).
Proof.
  intros [Htok Hsid Hoid Hs Ho]. unfold update_order_status.
  destruct (get_current_session _ _ _) as [session|]; [|by split].
  destruct (list_find _ _) as [[j o]|] eqn:Hfind; [|by case_match; split].
  pose proof Hfind as (Hj & _ & _)%list_find_Some.
  pose proof (Forall_lookup_1 _ _ _ _ Ho Hj) as (Hid & Hver & Hpay & _).
  destruct (OrderStatus_of_value _) as [cur|]; [|by split].
  case_decide as Hin; [by case_match; split|].
  split; simpl; [done|done| |done|].
  - by erewrite fmap_insert_same.
  - apply Forall_insert; [done|]. unfold order_consistent. simpl.
    split_and!; [done..|]. exists st. eauto using valid_transitions_not_PENDING.
Qed.

Lemma cancel_order_consistent id cred n nu db :
  db_consistent db → db_consistent (fst (cancel_order id cred n nu db)).
Proof.
  intros [Htok Hsid Hoid Hs Ho]. unfold cancel_order.
  destruct (get_current_session _ _ _) as [session|]; [|by split].
  destruct (list_find _ _) as [[j o]|] eqn:Hfind; [|by split].
  pose proof Hfind as (Hj & _ & _)%list_find_Some.
  pose proof (Forall_lookup_1 _ _ _ _ Ho Hj) as (Hid & Hver & Hpay & _).
  case_decide; [by split|].
  split; simpl; [done|done| |done|].
  - by erewrite fmap_insert_same.
  - apply Forall_insert; [done|]. unfold order_consistent. simpl.
    split_and!; [done..|]. by exists CANCELLED.
Qed.

Lemma serve_consistent r db : db_consistent db → db_consistent (serve r db).
Proof.
  destruct r; simpl;
    auto using initiate_order_consistent, verify_and_create_order_consistent,
      resend_verification_code_consistent, update_order_status_consistent,
      cancel_order_consistent.
Qed.

Lemma empty_db_consistent : db_consistent empty_db.
Proof. split; simpl; first [apply NoDup_nil_2 | apply Forall_nil_2]. Qed.

Lemma serve_all_snoc rs r db : serve_all (rs ++ [r]) db = serve r (serve_all rs db).
Proof. unfold serve_all. by rewrite foldl_app. Qed.

Lemma reachable_serve_all rs db : reachable db → reachable (serve_all rs db).
Proof.
  intros Hdb. induction rs as [|r rs IH] using rev_ind; [done|].
  rewrite serve_all_snoc. by constructor.
Qed.

Lemma reachable_db_consistent db : reachable db → db_consistent db.
Proof.
  induction 1 as [|r db _ IH]; [apply empty_db_consistent|by apply serve_consistent].
Qed.

(** X1: every database that the handlers can produce from the empty one,
    by requests served one after the other, is consistent: tokens, session
    identifiers and order identifiers are pairwise distinct; no stored
    session is verified or has a negative count of attempts, and each
    carries its own phone number in its order data; each order is
    verified, awaits payment, and is in a state of the enumeration other
    than [pending]. *)
Theorem reachable_rows_consistent (db : Database) :
  reachable db →
  NoDup (VerificationSession.session_token <$> verification_sessions db)
  ∧ NoDup (VerificationSession.id <$> verification_sessions db)
  ∧ NoDup (Order.id <$> orders db)
  ∧ (∀ s, s ∈ verification_sessions db →
       VerificationSession.verified s = false
       ∧ 0 ≤ VerificationSession.attempts s
       ∧ OrderData.phone_number (VerificationSession.order_data s)
         = VerificationSession.phone_number s)
  ∧ (∀ o, o ∈ orders db →
       Order.verified o = true
       ∧ Order.payment_status o = "pending"
       ∧ ∃ st, st ≠ PENDING ∧ Order.order_status o = OrderStatus_value st).
Proof.
  intros [Htok Hsid Hoid Hs Ho]%reachable_db_consistent.
  split_and!; [done..| |].
  - intros s Hin. eapply Forall_forall in Hs as (_ & ? & ? & ?); done.
  - intros o Hin. eapply Forall_forall in Ho as (_ & ? & ? & ?); done.
Qed.

(** ** Reading orders *)

(** The response of a successful confirmation is the response built from
    the row that it inserted. *)
Lemma verify_and_create_order_response
    two_fa_client now now_created now_updated verification db db' response :
  verify_and_create_order two_fa_client now now_created now_updated verification db
  = (db', Return response) →
  ∃ i session total,
    list_find (live_token (VerificationRequest.session_token verification) now)
      (verification_sessions db) = Some (i, session)
    ∧ orders db' = orders db ++ [order_of_session (orders_seq db) session total
                                   now_created now_updated]
    ∧ response = order_response (order_of_session (orders_seq db) session total
                                   now_created now_updated).
Proof.
  unfold verify_and_create_order. intros Hrun.
  destruct (list_find _ _) as [[i session]|] eqn:Hfind; [|by simplify_eq].
  destruct (VerificationSession.verified session); [by simplify_eq|].
  destruct (verify_pin _ _ _) as [verify_result|e0];
    [|by destruct e0; simplify_eq].
  destruct (negb _); [by case_decide; simplify_eq|].
  simpl in Hrun.
  destruct (py_int _) as [total|] eqn:Hint; [|by simplify_eq].
  case_decide; [by simplify_eq|].
  injection Hrun as <- <-. by exists i, session, total.
Qed.

(** X2: in a reachable database, the order that a successful confirmation
    returns can be fetched again: [get_order] on its identifier, in the
    database after the confirmation, returns the same response. *)
Theorem confirmed_order_can_be_fetched
    (two_fa_client : Infobip2FAClient) (now now_created now_updated : Z)
    (verification : VerificationRequest.t) (db db' : Database)
    (response : OrderResponse.t) :
  reachable db →
  verify_and_create_order two_fa_client now now_created now_updated verification db
  = (db', Return response) →
  get_order (OrderResponse.id response) db' = Return response.
Proof.
  intros [_ _ _ _ Ho]%reachable_db_consistent Hrun.
  apply verify_and_create_order_response in Hrun
    as (i & session & total & _ & Horders & ->).
  unfold get_order. rewrite Horders. simpl.
  rewrite list_find_app_r.
  - simpl. by rewrite decide_True.
  - apply list_find_None. eapply Forall_impl; [exact Ho|].
    intros o [Hlt _] Heq. simpl in Heq. lia.
Qed.

(** [get_order] answers 404 exactly when no order has the identifier, and
    otherwise returns an order with that identifier. *)
Lemma get_order_found order_id db :
  match get_order order_id db with
  | Return r =>
      OrderResponse.id r = order_id ∧ ∃ o, o ∈ orders db ∧ r = order_response o
  | Raise e =>
      e = HTTPException status.HTTP_404_NOT_FOUND "Order not found"
      ∧ ∀ o, o ∈ orders db → Order.id o ≠ order_id
  end.
Proof.
  unfold get_order.
  destruct (list_find _ _) as [[j o]|] eqn:Hfind.
  - apply list_find_Some in Hfind as (Hj & Hid & _).
    split; [done|]. exists o. split; [by eapply list_elem_of_lookup_2|done].
  - split; [done|]. apply list_find_None in Hfind. by apply Forall_forall.
Qed.

Lemma filter_all {A} (P : A → Prop) `{∀ x, Decision (P x)} (l : list A) :
  (∀ x, P x) → filter P l = l.
Proof.
  intros HP. induction l as [|x l IH]; [done|].
  rewrite filter_cons_True by done. by rewrite IH.
Qed.

(** The rows that [get_orders] pages through are the orders that pass
    its filter, in the order of the engine's scan. *)
Lemma get_orders_query skip limit phone_number db :
  get_orders skip limit phone_number db
  = order_response
      <$> take limit (drop skip (scan (filter (phone_matches phone_number) (orders db)))).
Proof.
  unfold get_orders. do 4 f_equal.
  destruct phone_number as [p|]; simpl.
  - case_decide as Hp.
    + subst. symmetry. apply filter_all. intros. by left.
    + apply list_filter_iff. intros o. split; [by right|]. by intros [?|?].
  - symmetry. by apply filter_all.
Qed.

(** X4: [get_orders] returns at most [limit] orders, each the response of
    a stored order that passes the filter on the phone number (an absent
    or empty phone number filters nothing); and from offset 0 with a limit
    that is not below the number of stored orders, every stored order that
    passes the filter is returned. *)
Theorem get_orders_lists_the_matching_orders
    (skip limit : nat) (phone_number : option string) (db : Database) :
  (length (get_orders skip limit phone_number db) ≤ limit)%nat
  ∧ (∀ r, r ∈ get_orders skip limit phone_number db →
          ∃ o, o ∈ orders db ∧ r = order_response o ∧ phone_matches phone_number o)
  ∧ ((length (orders db) ≤ limit)%nat →
     ∀ o, o ∈ orders db → phone_matches phone_number o →
          order_response o ∈ get_orders 0 limit phone_number db).
Proof.
  rewrite !get_orders_query. split_and!.
  - rewrite length_fmap, length_take. lia.
  - intros r (o & -> & Hin)%list_elem_of_fmap.
    apply subseteq_take, subseteq_drop in Hin.
    rewrite scan_Permutation in Hin.
    apply list_elem_of_filter in Hin as [Hmatch Hin].
    by exists o.
  - intros Hlimit o Hin Hmatch. apply list_elem_of_fmap_2.
    rewrite drop_0, take_ge.
    + rewrite scan_Permutation. by apply list_elem_of_filter.
    + rewrite scan_Permutation. etrans; [apply length_filter|done].
Qed.

(** ** The life of a stored order *)

Lemma same_order_data_refl o : same_order_data o o.
Proof. by repeat split. Qed.

Lemma same_order_data_trans o1 o2 o3 :
  same_order_data o1 o2 → same_order_data o2 o3 → same_order_data o1 o3.
Proof.
  unfold same_order_data. intros H1 H2.
  destruct_and!. split_and!; congruence.
Qed.

Lemma same_order_data_set_order_status v upd o :
  same_order_data o (Order.set_order_status v upd o).
Proof. by repeat split. Qed.

(** What one request can do to the row of an order: nothing, or write a
    new status and update time, either by [update_order_status] along
    [valid_transitions] or by [cancel_order] on an order that is neither
    shipped nor delivered. *)
Lemma serve_order_row r db k o :
  orders db !! k = Some o →
  ∃ o',
    orders (serve r db) !! k = Some o'
    ∧ (o' = o
       ∨ ∃ new upd,
           o' = Order.set_order_status (OrderStatus_value new) upd o
           ∧ ((∃ cur, OrderStatus_of_value (Order.order_status o) = Return cur
                      ∧ new ∈ valid_transitions cur)
              ∨ (new = CANCELLED
                 ∧ Order.order_status o
                   ∉ [OrderStatus_value SHIPPED; OrderStatus_value DELIVERED]))).
Proof.
  intros Hk. destruct r as [c n tok ne nc order|c n nc nu v|c n ne tok
                            |id st cred n nu|id cred n nu]; simpl.
  - exists o. split; [|by left].
    unfold initiate_order. by repeat case_match.
  - exists o. split; [|by left].
    unfold verify_and_create_order.
    repeat case_match; simpl; try done. by apply lookup_app_l_Some.
  - exists o. split; [|by left].
    unfold resend_verification_code. by repeat case_match.
  - unfold update_order_status.
    destruct (get_current_session _ _ _); [|by eauto].
    destruct (list_find _ _) as [[j order]|] eqn:Hfind;
      [|by case_match; eauto].
    apply list_find_Some in Hfind as (Hj & _ & _).
    destruct (OrderStatus_of_value _) as [cur|] eqn:Hcur; [|by eauto].
    case_decide as Hin; [by case_match; eauto|]. simpl.
    destruct (decide (k = j)) as [->|Hne].
    + simplify_eq. eexists. split.
      * apply list_lookup_insert_eq. by eapply lookup_lt_Some.
      * right. exists st, nu. split; [done|]. left. by exists cur.
    + exists o. split; [|by left]. by rewrite list_lookup_insert_ne.
  - unfold cancel_order.
    destruct (get_current_session _ _ _); [|by eauto].
    destruct (list_find _ _) as [[j order]|] eqn:Hfind; [|by eauto].
    apply list_find_Some in Hfind as (Hj & _ & _).
    case_decide as Hin; [by eauto|]. simpl.
    destruct (decide (k = j)) as [->|Hne].
    + simplify_eq. eexists. split.
      * apply list_lookup_insert_eq. by eapply lookup_lt_Some.
      * right. exists CANCELLED, nu. split; [done|]. by right.
    + exists o. split; [|by left]. by rewrite list_lookup_insert_ne.
Qed.

Lemma serve_all_cons r rs db : serve_all (r :: rs) db = serve_all rs (serve r db).
Proof. done. Qed.

(** One request leaves the state of a stored order or moves it along the
    table of transitions. *)
Lemma order_status_step r db k o current :
  orders db !! k = Some o →
  Order.order_status o = OrderStatus_value current →
  current ≠ PENDING →
  ∃ o' next,
    orders (serve r db) !! k = Some o'
    ∧ Order.order_status o' = OrderStatus_value next
    ∧ (next = current ∨ transition_allowed current next = true).
Proof.
  intros Hk Hstatus Hpending.
  destruct (serve_order_row r db k o Hk) as (o' & Hk' & [->|Hstep]).
  - exists o, current. split_and!; [done|done|by left].
  - destruct Hstep as (new & upd & -> & Hhow).
    exists (Order.set_order_status (OrderStatus_value new) upd o), new.
    split_and!; [done|done|].
    destruct Hhow as [(cur & Hcur & Hin)|[-> Hnot]].
    + rewrite Hstatus, OrderStatus_of_value_value in Hcur. simplify_eq.
      right. by apply valid_transitions_table.
    + rewrite Hstatus in Hnot.
      destruct current; simpl; auto; try done;
        exfalso; apply Hnot; simpl;
        repeat first [apply list_elem_of_here | apply list_elem_of_further].
Qed.

Lemma later_status_step a b c :
  later_status a b = true → b = c ∨ transition_allowed b c = true →
  later_status a c = true.
Proof. intros Hab [->|Hbc]; [done|]. by destruct a, b, c. Qed.

Lemma later_status_not_PENDING a b : a ≠ PENDING → later_status a b = true → b ≠ PENDING.
Proof. by destruct a, b. Qed.

(** X5: whatever requests are served, in whatever number, a stored order
    only moves forward in the table of transitions: an order that is
    [verified] may end in any state but [pending], a [processing] one
    stays or ends [shipped], [delivered] or [cancelled], a [shipped] one
    stays or ends [delivered] and is never cancelled, and a [delivered]
    or [cancelled] one stays as it is. *)
Theorem status_only_moves_forward
    (rs : list Request) (db : Database) (k : nat) (o : Order.t)
    (current : OrderStatus) :
  orders db !! k = Some o →
  Order.order_status o = OrderStatus_value current →
  current ≠ PENDING →
  ∃ o' next,
    orders (serve_all rs db) !! k = Some o'
    ∧ Order.order_status o' = OrderStatus_value next
    ∧ later_status current next = true.
Proof.
  intros Hk Hstatus Hpending.
  assert (∀ rs db o cur,
            orders db !! k = Some o →
            Order.order_status o = OrderStatus_value cur →
            later_status current cur = true →
            ∃ o' next,
              orders (serve_all rs db) !! k = Some o'
              ∧ Order.order_status o' = OrderStatus_value next
              ∧ later_status current next = true) as Hgen.
  { clear rs db o Hk Hstatus.
    induction rs as [|r rs IH]; intros db o cur Hk Hstatus Hlater.
    - by exists o, cur.
    - rewrite serve_all_cons.
      assert (cur ≠ PENDING) as Hcur by eauto using later_status_not_PENDING.
      destruct (order_status_step r db k o cur Hk Hstatus Hcur)
        as (o1 & next & Hk1 & Hst1 & Hmove).
      apply (IH _ o1 next Hk1 Hst1).
      apply (later_status_step current cur next Hlater).
      destruct Hmove as [->|Hmove]; [by left|by right]. }
  apply (Hgen rs db o current Hk Hstatus). by destruct current.
Qed.

(** No list of requests deletes, moves or rewrites the data of a row of
    the table of orders. *)
Lemma orders_kept_at rs db k o :
  orders db !! k = Some o →
  ∃ o', orders (serve_all rs db) !! k = Some o' ∧ same_order_data o o'.
Proof.
  revert db o. induction rs as [|r rs IH]; intros db o Hk.
  - exists o. split; [done|apply same_order_data_refl].
  - rewrite serve_all_cons.
    destruct (serve_order_row r db k o Hk) as (o1 & Hk1 & Hstep).
    destruct (IH _ _ Hk1) as (o' & Hk' & Hsame).
    exists o'. split; [done|].
    eapply same_order_data_trans; [|done].
    destruct Hstep as [->|(new & upd & -> & _)];
      [apply same_order_data_refl|apply same_order_data_set_order_status].
Qed.

(** X6: no list of requests deletes a stored order or rewrites its data:
    after any requests the table of orders still holds an order with the
    same identifier, phone number, address, payment method and status,
    books, total, creation time and verified flag. *)
Theorem orders_are_kept (rs : list Request) (db : Database) (o : Order.t) :
  o ∈ orders db →
  ∃ o',
    o' ∈ orders (serve_all rs db)
    ∧ Order.id o' = Order.id o
    ∧ Order.phone_number o' = Order.phone_number o
    ∧ Order.address o' = Order.address o
    ∧ Order.payment_method o' = Order.payment_method o
    ∧ Order.payment_status o' = Order.payment_status o
    ∧ Order.book_list o' = Order.book_list o
    ∧ Order.total_amount o' = Order.total_amount o
    ∧ Order.created_at o' = Order.created_at o
    ∧ Order.verified o' = Order.verified o.
Proof.
  intros [k Hk]%list_elem_of_lookup_1.
  destruct (orders_kept_at rs db k o Hk) as (o' & Hk' & Hsame).
  exists o'. split; [by eapply list_elem_of_lookup_2|exact Hsame].
Qed.

(** X7: a delivered order is final: whatever requests follow, its row,
    update time included, is never written again. *)
Theorem delivered_order_is_final
    (rs : list Request) (db : Database) (k : nat) (o : Order.t) :
  orders db !! k = Some o →
  Order.order_status o = OrderStatus_value DELIVERED →
  orders (serve_all rs db) !! k = Some o.
Proof.
  revert db. induction rs as [|r rs IH]; intros db Hk Hstatus; [done|].
  rewrite serve_all_cons. apply IH; [|done].
  destruct (serve_order_row r db k o Hk) as (o' & Hk' & [->|Hstep]); [done|].
  exfalso. destruct Hstep as (new & upd & _ & [(cur & Hcur & Hin)|[_ Hnot]]).
  - rewrite Hstatus, OrderStatus_of_value_value in Hcur. simplify_eq.
    simpl in Hin. by apply elem_of_nil in Hin.
  - apply Hnot. rewrite Hstatus. apply list_elem_of_further, list_elem_of_here.
Qed.

(** [later_status] is the table of transitions closed under reflexivity
    and transitivity. *)
Lemma later_status_closure a b :
  later_status a b = true ↔ rtc (λ x y, transition_allowed x y = true) a b.
Proof.
  split.
  - destruct a, b; simpl; intros H; try done; try apply rtc_refl;
      repeat first [ by apply rtc_once
                   | (eapply (rtc_l _ _ PROCESSING); [done|])
                   | (eapply (rtc_l _ _ SHIPPED); [done|]) ].
  - induction 1 as [x|x y z Hxy _ IH]; [by destruct x|].
    destruct x, y; try done; by destruct z.
Qed.

(** ** Where orders come from *)

(** X8: a request either leaves the number of orders as it is, or it is a
    confirmation whose token found an unverified session and whose code
    the provider reported as verified for the PIN of that session; it
    then appends exactly one order, built from the data of that session.
    No other request, and no confirmation without the provider's
    verification, creates an order. *)
Theorem order_needs_a_verified_code (r : Request) (db : Database) :
  length (orders (serve r db)) = length (orders db)
  ∨ ∃ two_fa_client now now_created now_updated verification
      i session verify_result total,
      r = Verify two_fa_client now now_created now_updated verification
      ∧ list_find (live_token (VerificationRequest.session_token verification) now)
          (verification_sessions db) = Some (i, session)
      ∧ VerificationSession.verified session = false
      ∧ verify_pin two_fa_client (VerificationSession.pin_id session)
          (VerificationRequest.pin_code verification) = Return verify_result
      ∧ verified verify_result = Some true
      ∧ orders (serve r db)
        = orders db ++ [order_of_session (orders_seq db) session total
                          now_created now_updated].
Proof.
  destruct r as [c n tok ne nc order|c n nc nu v|c n ne tok
                |id st cred n nu|id cred n nu]; simpl.
  - left. unfold initiate_order. by repeat case_match.
  - unfold verify_and_create_order.
    destruct (list_find _ _) as [[i session]|] eqn:Hfind; [|by left].
    destruct (VerificationSession.verified session) eqn:Hunv; [by left|].
    destruct (verify_pin _ _ _) as [verify_result|e0] eqn:Hpin;
      [|by left; destruct e0].
    destruct (truthy (verified verify_result)) eqn:Htrue; simpl.
    + destruct (py_int _) as [total|] eqn:Hint; [|by left].
      case_decide; [by left|].
      right. exists c, n, nc, nu, v, i, session, verify_result, total.
      split_and!; try done.
      by destruct (verified verify_result) as [[]|].
    + left. by case_decide.
  - left. unfold resend_verification_code. by repeat case_match.
  - left. unfold update_order_status.
    repeat case_match; simpl; try done. by rewrite length_insert.
  - left. unfold cancel_order.
    repeat case_match; simpl; try done. by rewrite length_insert.
Qed.

(** ** The count of the rate limit *)

Section FilterLength.
Context {A : Type} (P : A → Prop) `{∀ x, Decision (P x)}.

Lemma length_filter_insert_same (l : list A) i x y :
  l !! i = Some x → (P x ↔ P y) →
  length (filter P (<[i := y]> l)) = length (filter P l).
Proof.
  revert i. induction l as [|z l IH]; intros [|i] Hi Hiff; simplify_eq/=.
  - rewrite !filter_cons. do 2 case_decide; simpl; tauto.
  - rewrite !filter_cons. case_decide; simpl; by rewrite IH.
Qed.

Lemma length_filter_delete_le (l : list A) i :
  (length (filter P (delete i l)) ≤ length (filter P l))%nat.
Proof.
  revert i. induction l as [|z l IH]; intros [|i]; simpl; try done.
  - rewrite filter_cons. case_decide; simpl; lia.
  - rewrite !filter_cons. specialize (IH i). case_decide; simpl; lia.
Qed.

End FilterLength.

(** X9: the number of sessions that the rate limit counts for a phone
    number at an instant can only be raised by [initiate_order], for that
    phone number, and by one; sending a code again leaves the count as it
    is, and no confirmation, status change or cancellation raises it. *)
Theorem only_initiate_raises_the_count
    (r : Request) (db : Database) (phone_number : string) (now : Z) :
  recent_sessions phone_number now (serve r db)
  ≤ recent_sessions phone_number now db
    + match r with
      | Initiate _ _ _ _ _ order =>
          if decide (OrderRequest.phone_number order = phone_number) then 1 else 0
      | _ => 0
      end
  ∧ match r with
    | ResendCode _ _ _ _ | UpdateStatus _ _ _ _ _ | Cancel _ _ _ _ =>
        recent_sessions phone_number now (serve r db)
        = recent_sessions phone_number now db
    | _ => True
    end.
Proof.
  unfold recent_sessions.
  destruct r as [c n tok ne nc order|c n nc nu v|c n ne tok
                |id st cred n nu|id cred n nu]; simpl.
  - split; [|done]. unfold initiate_order.
    repeat case_match; simpl; try lia;
      (rewrite filter_app, length_app, filter_singleton; [|exact []]);
      (destruct (decide (recent _ _ _)) as [Hrec|Hrec]; simpl; [|lia]);
      first [lia | by destruct Hrec].
  - split; [|done]. unfold verify_and_create_order.
    destruct (list_find _ _) as [[i session]|] eqn:Hfind; [|simpl; lia].
    apply list_find_Some in Hfind as (Hi & _ & _).
    repeat case_match; simpl; try lia; rewrite ?delete_insert_row.
    + pose proof (length_filter_delete_le (recent phone_number now)
                    (verification_sessions db) i). lia.
    + erewrite length_filter_insert_same; [lia|done|done].
    + pose proof (length_filter_delete_le (recent phone_number now)
                    (verification_sessions db) i). lia.
  - assert (length (filter (recent phone_number now)
                      (verification_sessions
                         (fst (resend_verification_code c n ne tok db))))
            = length (filter (recent phone_number now) (verification_sessions db)))
      as ->; [|split; [lia|done]].
    unfold resend_verification_code.
    destruct (list_find _ _) as [[i session]|] eqn:Hfind; [|done].
    apply list_find_Some in Hfind as (Hi & _ & _).
    repeat case_match; simpl; try done.
    by erewrite length_filter_insert_same.
  - assert (verification_sessions (fst (update_order_status id st cred n nu db))
            = verification_sessions db) as ->; [|split; [lia|done]].
    unfold update_order_status. by repeat case_match.
  - assert (verification_sessions (fst (cancel_order id cred n nu db))
            = verification_sessions db) as ->; [|split; [lia|done]].
    unfold cancel_order. by repeat case_match.
Qed.

(** ** Outcomes of the session handlers *)


(** X11: the session that [initiate_order] has just created can be
    confirmed for ten minutes from the instant at which its deadline was
    set, and no longer: a confirmation with its token fails with
    "Invalid or expired session" exactly when its clock has reached that
    instant plus ten minutes. *)
Theorem session_lives_ten_minutes
    (two_fa_client : Infobip2FAClient)
    (now_query : Z) (session_token : string) (now_expires now_created : Z)
    (order : OrderRequest.t) (db db1 : Database) (response : InitiateResponse.t)
    (two_fa_client' : Infobip2FAClient) (now now_created' now_updated : Z)
    (pin_code : string) :
  initiate_order two_fa_client now_query session_token now_expires now_created order db
  = (db1, Return response) →
  verify_and_create_order two_fa_client' now now_created' now_updated
    (VerificationRequest.mk session_token pin_code) db1
  = (db1, Raise (HTTPException status.HTTP_401_UNAUTHORIZED "Invalid or expired session"))
  ↔ now_expires + timedelta_minutes 10 ≤ now.
Proof.
  intros Hrun.
  apply initiate_order_Return in Hrun
    as (pin_id & total & _ & _ & Hfresh & _ & ->).
  unfold verify_and_create_order.
  cbn [VerificationRequest.session_token VerificationRequest.pin_code
       verification_sessions].
  match goal with
  | |- context [list_find _ (_ ++ [?s])] => set (session := s)
  end.
  destruct (decide (now < now_expires + timedelta_minutes 10)) as [Hlive|Hdead].
  - pose proof (list_find_new_session (verification_sessions db) session now
                  Hfresh Hlive) as Hfind.
    cbn [VerificationSession.session_token session] in Hfind. rewrite Hfind.
    split; [|lia]. intros Hrun. exfalso.
    cbn [VerificationSession.verified VerificationSession.pin_id session] in Hrun.
    destruct (verify_pin _ _ _) as [verify_result|e0] eqn:Hpin.
    + destruct (negb _).
      * case_decide; by simplify_eq.
      * destruct (py_int _) as [?|e1] eqn:Hint.
        -- case_decide; by simplify_eq.
        -- apply py_int_Raise in Hint. destruct Hint; by simplify_eq.
    + destruct e0; try by simplify_eq.
      apply verify_pin_HTTPException in Hpin. by simplify_eq.
  - split; [lia|]. intros _.
    assert (list_find (live_token session_token now)
              (verification_sessions db ++ [session]) = None) as ->; [|done].
    apply list_find_None, Forall_app. split.
    + apply Forall_forall. intros x Hx [Htok _]. apply Hfresh.
      rewrite <- Htok. by apply list_elem_of_fmap_2.
    + apply Forall_singleton. intros [_ Hlive]. simpl in Hlive. lia.
Qed.

(** X12: a confirmation that raises creates no order: the table of orders
    and the sequence of the sessions are as before.  It raises only
    SessionInvalid, AlreadyConsumed, InvalidCode, AttemptsExhausted,
    ProviderUnavailable, [OverflowError] or [ValueError] (a total that is
    an infinity or a NaN) and [DataError] (a total outside the range of
    the INTEGER column); unless it is InvalidCode or AttemptsExhausted,
    the sessions too are as before, and unless it is [DataError] the
    sequence of the orders has not moved. *)
Theorem failed_confirmation_creates_no_order
    (two_fa_client : Infobip2FAClient) (now now_created now_updated : Z)
    (verification : VerificationRequest.t) (db db' : Database) (e : Exception) :
  verify_and_create_order two_fa_client now now_created now_updated verification db
  = (db', Raise e) →
  orders db' = orders db
  ∧ verification_sessions_seq db' = verification_sessions_seq db
  ∧ orders_seq db ≤ orders_seq db'
  ∧ (SessionInvalid e ∨ AlreadyConsumed e ∨ (∃ n, InvalidCode n e)
     ∨ AttemptsExhausted e ∨ ProviderUnavailable e
     ∨ e = OverflowError ∨ e = ValueError ∨ e = DataError)
  ∧ ((∀ n, ¬ InvalidCode n e) → ¬ AttemptsExhausted e →
     verification_sessions db' = verification_sessions db)
  ∧ (e ≠ DataError → orders_seq db' = orders_seq db).
Proof.
  unfold verify_and_create_order. intros Hrun.
  destruct (list_find _ _) as [[i session]|] eqn:Hfind.
  - destruct (VerificationSession.verified session).
    + simplify_eq. split_and!; [done..|by right; left|done|done].
    + destruct (verify_pin _ _ _) as [verify_result|e0] eqn:Hpin.
      * destruct (negb _).
        -- case_decide; simplify_eq; simpl.
           ++ split_and!; [done..|by do 3 right; left| |done].
              intros _ Hnot. by destruct Hnot.
           ++ split_and!; [done..|by do 2 right; left; eexists| |done].
              intros Hnot _. by destruct (Hnot _ eq_refl).
        -- destruct (py_int _) as [total|e1] eqn:Hint.
           ++ case_decide; simplify_eq. simpl.
              split_and!; [done|done|apply sequence_after_overflow_le
                          |by do 7 right|done|done].
           ++ simplify_eq. apply py_int_Raise in Hint.
              split_and!; [done..| |done|done].
              destruct Hint; [by do 5 right; left|by do 6 right; left].
      * assert (ProviderUnavailable e ∧ db' = db) as [He ->].
        { destruct e0; simplify_eq; try (split; [by eexists|done]).
          apply verify_pin_HTTPException in Hpin as ->.
          split; [by eexists|done]. }
        split_and!; [done..|by do 4 right; left|done|done].
  - simplify_eq. split_and!; [done..|by left; left|done|done].
Qed.

(** ** Sending the code again *)

(** X13: [resend_verification_code] either returns 600 and has rewritten
    the row that the token found, unverified until then, with the new PIN
    identifier of the provider, no attempts and a deadline ten minutes
    after the instant at which it was set, keeping its identifier, token,
    phone number, creation time and order data; or raises SessionInvalid,
    AlreadyConsumed or ProviderUnavailable (also when the provider's answer
    has no PIN identifier) and leaves the database as it was.  The orders
    are as before in both cases. *)
Theorem resend_restarts_the_session
    (two_fa_client : Infobip2FAClient) (now_query now_expires : Z)
    (session_token : string) (db : Database) :
  match resend_verification_code two_fa_client now_query now_expires
          session_token db with
  | (db', Return expires_in_seconds) =>
      expires_in_seconds = 600
      ∧ ∃ i session pin_id,
          list_find (live_token session_token now_query) (verification_sessions db)
          = Some (i, session)
          ∧ VerificationSession.verified session = false
          ∧ send_pin two_fa_client (VerificationSession.phone_number session)
            = Return (mkSendPinResult (Some pin_id))
          ∧ db' = with_sessions
                    (<[i := VerificationSession.mk
                              (VerificationSession.id session)
                              (VerificationSession.session_token session)
                              (VerificationSession.phone_number session)
                              pin_id 0 false
                              (now_expires + timedelta_minutes 10)
                              (VerificationSession.created_at session)
                              (VerificationSession.order_data session)]>
                       (verification_sessions db)) db
  | (db', Raise e) =>
      db' = db ∧ (SessionInvalid e ∨ AlreadyConsumed e ∨ ProviderUnavailable e)
  end.
Proof.
  unfold resend_verification_code.
  destruct (list_find _ _) as [[i session]|] eqn:Hfind;
    [|by split; [|left; right]].
  destruct (VerificationSession.verified session) eqn:Hunv;
    [by split; [|right; left]|].
  destruct (send_pin _ _) as [[[pin_id|]]|e0] eqn:Hpin;
    try by split; [|right; right; eexists].
  split; [done|]. exists i, session, pin_id.
  split_and!; [done..|].
  unfold VerificationSession.set_expires_at, VerificationSession.set_attempts,
    VerificationSession.set_pin_id. simpl. by rewrite Hunv.
Qed.

(** The row that a token finds in a table of distinct tokens. *)
Lemma list_find_live_unique (l : list VerificationSession.t) i s now :
  NoDup (tokens l) → l !! i = Some s →
  now < VerificationSession.expires_at s →
  list_find (live_token (VerificationSession.session_token s) now) l = Some (i, s).
Proof.
  intros Hnd Hi Hlive. apply list_find_Some. split_and!; [done|by split|].
  intros j x Hj Hlt [Htok _].
  assert (i = j) by (eapply unique_tokens_index; eauto). lia.
Qed.

(** X14: the code sent again is the one that confirms.  After a returning
    [resend_verification_code], a confirmation before the new deadline
    whose code the provider verifies for the new PIN identifier creates
    the order from the data captured at the initiation, with the integer
    part of the captured total when that fits the INTEGER column, whether
    or not the first deadline has passed in between. *)
Theorem resent_code_confirms
    (two_fa_client : Infobip2FAClient) (now_query now_expires : Z)
    (session_token : string) (db db1 : Database) (expires_in_seconds : Z)
    (two_fa_client' : Infobip2FAClient) (now now_created now_updated : Z)
    (pin_code : string) (verify_result : VerifyPinResult) :
  unique_tokens db →
  resend_verification_code two_fa_client now_query now_expires session_token db
  = (db1, Return expires_in_seconds) →
  ∃ i session pin_id,
    list_find (live_token session_token now_query) (verification_sessions db)
    = Some (i, session)
    ∧ send_pin two_fa_client (VerificationSession.phone_number session)
      = Return (mkSendPinResult (Some pin_id))
    ∧ (now < now_expires + timedelta_minutes 10 →
       verify_pin two_fa_client' pin_id pin_code = Return verify_result →
       truthy (verified verify_result) = true →
       ∀ total,
         integer_part
           (OrderData.total_amount (VerificationSession.order_data session)) total →
         INTEGER_min ≤ total ≤ INTEGER_max →
         ∃ response,
           verify_and_create_order two_fa_client' now now_created now_updated
             (VerificationRequest.mk session_token pin_code) db1
           = (mkDatabase (delete i (verification_sessions db))
                (orders db ++
                   [Order.mk (orders_seq db)
                      (OrderData.phone_number (VerificationSession.order_data session))
                      (OrderData.address (VerificationSession.order_data session))
                      (OrderData.payment_method (VerificationSession.order_data session))
                      "pending"
                      (OrderData.books (VerificationSession.order_data session))
                      total "verified" now_created now_updated true])
                (verification_sessions_seq db) (orders_seq db + 1),
              Return response)
           ∧ OrderResponse.total_amount response = total).
Proof.
  intros Hnd Hrun. unfold resend_verification_code in Hrun.
  destruct (list_find _ _) as [[i session]|] eqn:Hfind; [|by simplify_eq].
  destruct (VerificationSession.verified session) eqn:Hunv; [by simplify_eq|].
  destruct (send_pin _ _) as [[[pin_id|]]|e0] eqn:Hpin; try by simplify_eq.
  injection Hrun as <- _.
  exists i, session, pin_id. split_and!; [done|done|].
  intros Hlive Hverify Htrue total Htotal%py_int_integer_part Hrange.
  pose proof Hfind as (Hi & [Htok _] & _)%list_find_Some.
  set (session' := VerificationSession.set_expires_at _ _).
  assert (list_find (live_token session_token now)
            (<[i := session']> (verification_sessions db)) = Some (i, session'))
    as Hfind'.
  { rewrite <- Htok.
    apply (list_find_live_unique _ i session' now).
    - by erewrite tokens_insert_same.
    - apply list_lookup_insert_eq. by eapply lookup_lt_Some.
    - done. }
  unfold verify_and_create_order.
  cbn [VerificationRequest.session_token VerificationRequest.pin_code
       verification_sessions with_sessions].
  rewrite Hfind'.
  assert (VerificationSession.verified session' = false) as -> by done.
  assert (VerificationSession.pin_id session' = pin_id) as -> by done.
  rewrite Hverify, Htrue.
  assert (VerificationSession.order_data (VerificationSession.set_verified true session')
          = VerificationSession.order_data session) as -> by done.
  cbn [negb]. rewrite Htotal, decide_False by lia. eexists. split.
  - cbn. by rewrite !delete_insert_row.
  - done.
Qed.

(** ** Wrong codes *)

(** One wrong code, with attempts left: the attempt is counted on the row
    and nothing else changes. *)
Lemma verify_wrong_code_step c now nc nu tok code db i s vr :
  unique_tokens db →
  verification_sessions db !! i = Some s →
  VerificationSession.session_token s = tok →
  VerificationSession.verified s = false →
  now < VerificationSession.expires_at s →
  verify_pin c (VerificationSession.pin_id s) code = Return vr →
  truthy (verified vr) = false →
  default 0 (attemptsRemaining vr) ≠ 0 →
  fst (verify_and_create_order c now nc nu (VerificationRequest.mk tok code) db)
  = with_sessions (<[i := attempt_counted s]> (verification_sessions db)) db.
Proof.
  intros Hnd Hi <- Hunv Hlive Hpin Hfalse Hrem.
  unfold verify_and_create_order. simpl.
  rewrite (list_find_live_unique _ i s now Hnd Hi Hlive), Hunv, Hpin, Hfalse.
  simpl. by case_decide.
Qed.

(** Wrong codes with attempts left are counted one by one on the row of
    the session. *)
Lemma wrong_codes_counted
    (tries : list (Infobip2FAClient * Z * string)) (db : Database)
    (i : nat) (session : VerificationSession.t) :
  unique_tokens db →
  verification_sessions db !! i = Some session →
  VerificationSession.verified session = false →
  Forall (λ try,
            try.1.2 < VerificationSession.expires_at session
            ∧ ∃ verify_result,
                verify_pin try.1.1 (VerificationSession.pin_id session) try.2
                = Return verify_result
                ∧ truthy (verified verify_result) = false
                ∧ default 0 (attemptsRemaining verify_result) ≠ 0) tries →
  serve_all
    ((λ try, Verify try.1.1 try.1.2 try.1.2 try.1.2
               (VerificationRequest.mk (VerificationSession.session_token session)
                  try.2)) <$> tries) db
  = with_sessions
      (<[i := VerificationSession.set_attempts
                (VerificationSession.attempts session + Z.of_nat (length tries))
                session]> (verification_sessions db)) db.
Proof.
  revert db session.
  induction tries as [|[[c now] code] tries IH]; intros db session Hnd Hi Hunv Hall.
  - simpl. rewrite Z.add_0_r.
    assert (VerificationSession.set_attempts (VerificationSession.attempts session)
              session = session) as -> by by destruct session.
    rewrite list_insert_id by done. by destruct db.
  - apply Forall_cons in Hall as [(Hlive & vr & Hpin & Hfalse & Hrem) Hall].
    simpl in Hlive, Hpin.
    rewrite fmap_cons, serve_all_cons. simpl serve.
    rewrite (verify_wrong_code_step c now now now _ code db i session vr)
      by done.
    rewrite (IH _ (attempt_counted session)).
    + cbn [verification_sessions with_sessions length].
      rewrite list_insert_insert_eq, Nat2Z.inj_succ.
      unfold with_sessions. cbn [orders verification_sessions_seq orders_seq].
      do 2 f_equal.
      unfold attempt_counted, VerificationSession.set_attempts.
      destruct session. cbn. f_equal. lia.
    + unfold unique_tokens. simpl. by erewrite tokens_insert_same.
    + simpl. apply list_lookup_insert_eq. by eapply lookup_lt_Some.
    + done.
    + done.
Qed.

(** X15: wrong codes add up.  After any number of confirmations of one
    session, each before its deadline and each answered by the provider
    as not verified with attempts left, the row of the session has
    counted exactly that number of attempts more, and the rest of the
    database is as before. *)
Theorem wrong_codes_add_up
    (tries : list (Infobip2FAClient * Z * string)) (db : Database)
    (i : nat) (session : VerificationSession.t) :
  unique_tokens db →
  verification_sessions db !! i = Some session →
  VerificationSession.verified session = false →
  Forall (λ try,
            try.1.2 < VerificationSession.expires_at session
            ∧ ∃ verify_result,
                verify_pin try.1.1 (VerificationSession.pin_id session) try.2
                = Return verify_result
                ∧ truthy (verified verify_result) = false
                ∧ default 0 (attemptsRemaining verify_result) ≠ 0) tries →
  serve_all
    ((λ try, Verify try.1.1 try.1.2 try.1.2 try.1.2
               (VerificationRequest.mk (VerificationSession.session_token session)
                  try.2)) <$> tries) db
  = mkDatabase
      (<[i := VerificationSession.mk
                (VerificationSession.id session)
                (VerificationSession.session_token session)
                (VerificationSession.phone_number session)
                (VerificationSession.pin_id session)
                (VerificationSession.attempts session + Z.of_nat (length tries))
                false
                (VerificationSession.expires_at session)
                (VerificationSession.created_at session)
                (VerificationSession.order_data session)]>
         (verification_sessions db))
      (orders db) (verification_sessions_seq db) (orders_seq db).
Proof.
  intros Hnd Hi Hunv Hall.
  rewrite (wrong_codes_counted tries db i session Hnd Hi Hunv Hall).
  unfold with_sessions, VerificationSession.set_attempts. by rewrite Hunv.
Qed.

(** ** Outcomes of the order handlers *)

(** X16: [cancel_order] returns exactly for a token that finds a live
    session and an order of that session's phone number with the given
    identifier that is neither shipped nor delivered; it then writes
    [cancelled] and the update time on that row alone (also on an order
    that is cancelled already).  Otherwise it raises and leaves the
    database as it was: SessionInvalid without a live session,
    NotFoundOrUnauthorized without such an order, and status 400 on a
    shipped or delivered one. *)
Theorem cancel_order_outcomes
    (order_id : Z) (credentials : string) (now now_updated : Z) (db : Database) :
  match cancel_order order_id credentials now now_updated db with
  | (db', Return message) =>
      message = "Order cancelled successfully"
      ∧ ∃ session j order,
          get_current_session credentials now db = Return session
          ∧ list_find (owned_order order_id session) (orders db) = Some (j, order)
          ∧ Order.order_status order ≠ "shipped"
          ∧ Order.order_status order ≠ "delivered"
          ∧ db' = mkDatabase (verification_sessions db)
                    (<[j := Order.mk (Order.id order) (Order.phone_number order)
                              (Order.address order) (Order.payment_method order)
                              (Order.payment_status order) (Order.book_list order)
                              (Order.total_amount order) "cancelled"
                              (Order.created_at order) now_updated
                              (Order.verified order)]> (orders db))
                    (verification_sessions_seq db) (orders_seq db)
  | (db', Raise e) =>
      db' = db
      ∧ ((SessionInvalid e
          ∧ list_find (live_token credentials now) (verification_sessions db) = None)
         ∨ (NotFoundOrUnauthorized e
            ∧ ∃ session,
                get_current_session credentials now db = Return session
                ∧ list_find (owned_order order_id session) (orders db) = None)
         ∨ (e = HTTPException status.HTTP_400_BAD_REQUEST
                  "Cannot cancel shipped or delivered orders"
            ∧ ∃ session j order,
                get_current_session credentials now db = Return session
                ∧ list_find (owned_order order_id session) (orders db) = Some (j, order)
                ∧ (Order.order_status order = "shipped"
                   ∨ Order.order_status order = "delivered")))
  end.
Proof.
  unfold cancel_order, get_current_session.
  destruct (list_find _ (verification_sessions db)) as [[i session]|] eqn:Hsession.
  - destruct (list_find _ (orders db)) as [[j order]|] eqn:Hfind.
    + case_decide as Hin.
      * split; [done|]. do 2 right. split; [done|].
        exists session, j, order. split_and!; [done..|].
        apply elem_of_cons in Hin as [?|Hin]; [by left|].
        apply list_elem_of_singleton in Hin. by right.
      * split; [done|]. exists session, j, order.
        split_and!; [done|done| | |done]; intros Heq; apply Hin; rewrite Heq;
          repeat first [apply list_elem_of_here | apply list_elem_of_further].
    + split; [done|]. right. left. split; [done|]. by exists session.
  - split; [done|]. left. split; [by left|done].
Qed.

(** X17: [update_order_status] returns exactly for a token that finds a
    live session, an order of that session's phone number with the given
    identifier, and a requested state that the table allows after the
    state of that order; it then writes the requested state and the
    update time on that row alone.  In every other case it raises and the
    database is as it was. *)
Theorem update_order_status_returns_iff
    (order_id : Z) (requested : OrderStatus) (credentials : string)
    (now now_updated : Z) (db : Database) :
  let allowed session j order current :=
    get_current_session credentials now db = Return session
    ∧ list_find (owned_order order_id session) (orders db) = Some (j, order)
    ∧ OrderStatus_of_value (Order.order_status order) = Return current
    ∧ transition_allowed current requested = true in
  match update_order_status order_id requested credentials now now_updated db with
  | (db', Return message) =>
      message = "Order status updated to " +:+ OrderStatus_value requested
      ∧ ∃ session j order current,
          allowed session j order current
          ∧ db' = mkDatabase (verification_sessions db)
                    (<[j := Order.mk (Order.id order) (Order.phone_number order)
                              (Order.address order) (Order.payment_method order)
                              (Order.payment_status order) (Order.book_list order)
                              (Order.total_amount order)
                              (OrderStatus_value requested)
                              (Order.created_at order) now_updated
                              (Order.verified order)]> (orders db))
                    (verification_sessions_seq db) (orders_seq db)
  | (db', Raise e) =>
      db' = db ∧ ¬ ∃ session j order current, allowed session j order current
  end.
Proof.
  intros allowed. subst allowed. unfold update_order_status. cbn beta.
  destruct (get_current_session _ _ _) as [session|e0].
  - destruct (list_find _ _) as [[j order]|] eqn:Hfind.
    + destruct (OrderStatus_of_value _) as [current|e1] eqn:Hcur.
      * case_decide as Hin.
        -- assert (transition_allowed current requested ≠ true) as Hnot
             by (by rewrite <- valid_transitions_table).
           rewrite OrderStatus_getattr_status_code by auto.
           split; [done|].
           intros (s' & j' & o' & c' & Hs & Hf & Hc & Ht).
           injection Hs as <-. rewrite Hfind in Hf. injection Hf as <- <-.
           rewrite Hcur in Hc. by injection Hc as <-.
        -- split; [done|]. exists session, j, order, current.
           split_and!; [done..| |done]. by apply valid_transitions_table.
      * split; [done|].
        intros (s' & j' & o' & c' & Hs & Hf & Hc & Ht).
        injection Hs as <-. rewrite Hfind in Hf. injection Hf as <- <-.
        by rewrite Hcur in Hc.
    + rewrite OrderStatus_getattr_status_code by auto.
      split; [done|].
      intros (s' & j' & o' & c' & Hs & Hf & Hc & Ht).
      injection Hs as <-. by rewrite Hfind in Hf.
  - split; [done|].
    by intros (s' & j' & o' & c' & Hs & Hf & Hc & Ht).
Qed.

(** X18: a status change or a cancellation, whether it returns or raises,
    leaves every session as it was (the token that authorised it stays
    usable until its deadline) and creates or deletes no order; and
    neither [initiate_order] nor [resend_verification_code] touches the
    table of orders. *)
Theorem handlers_keep_to_their_table (r : Request) (db : Database) :
  match r with
  | UpdateStatus _ _ _ _ _ | Cancel _ _ _ _ =>
      verification_sessions (serve r db) = verification_sessions db
      ∧ verification_sessions_seq (serve r db) = verification_sessions_seq db
      ∧ orders_seq (serve r db) = orders_seq db
      ∧ length (orders (serve r db)) = length (orders db)
  | Initiate _ _ _ _ _ _ | ResendCode _ _ _ _ =>
      orders (serve r db) = orders db ∧ orders_seq (serve r db) = orders_seq db
  | Verify _ _ _ _ _ => True
  end.
Proof.
  destruct r as [c n tok ne nc order|c n nc nu v|c n ne tok
                |id st cred n nu|id cred n nu]; simpl; [| done | | |].
  - unfold initiate_order. by repeat case_match.
  - unfold resend_verification_code. by repeat case_match.
  - unfold update_order_status.
    repeat case_match; simpl; split_and!; try done. by rewrite length_insert.
  - unfold cancel_order.
    repeat case_match; simpl; split_and!; try done. by rewrite length_insert.
Qed.

(** ** Tokens that authorise nothing *)

(** X19: an expired token authorises nothing: with the token of a stored
    session whose deadline has passed, [update_order_status] and
    [cancel_order] fail with status 401 and leave the database as it
    was. *)
Theorem expired_token_authorises_nothing
    (db : Database) (s : VerificationSession.t) (now now_updated : Z)
    (order_id : Z) (requested : OrderStatus) :
  unique_tokens db →
  s ∈ verification_sessions db →
  VerificationSession.expires_at s ≤ now →
  update_order_status order_id requested (VerificationSession.session_token s)
    now now_updated db
  = (db, Raise (HTTPException status.HTTP_401_UNAUTHORIZED "Invalid or expired session"))
  ∧ cancel_order order_id (VerificationSession.session_token s) now now_updated db
    = (db, Raise (HTTPException status.HTTP_401_UNAUTHORIZED "Invalid or expired session")).
Proof.
  intros Hnd Hs Hexp.
  unfold update_order_status, cancel_order, get_current_session.
  by erewrite expired_not_found by eauto.
Qed.

(** X20: the token of a confirmed order authorises nothing either: after
    a successful confirmation its session is gone, and
    [update_order_status] and [cancel_order] with that token, at any
    instant and for any order, the one just created included, fail with
    status 401 and leave the database as it was. *)
Theorem consumed_token_authorises_nothing
    (two_fa_client : Infobip2FAClient) (now now_created now_updated : Z)
    (verification : VerificationRequest.t) (db db' : Database)
    (response : OrderResponse.t)
    (order_id : Z) (requested : OrderStatus) (now' now_updated' : Z) :
  unique_tokens db →
  verify_and_create_order two_fa_client now now_created now_updated verification db
  = (db', Return response) →
  update_order_status order_id requested
    (VerificationRequest.session_token verification) now' now_updated' db'
  = (db', Raise (HTTPException status.HTTP_401_UNAUTHORIZED "Invalid or expired session"))
  ∧ cancel_order order_id (VerificationRequest.session_token verification)
      now' now_updated' db'
    = (db', Raise (HTTPException status.HTTP_401_UNAUTHORIZED "Invalid or expired session")).
Proof.
  intros Hnd Hrun.
  apply verify_and_create_order_Return in Hrun
    as (i & session & total & Hfind & _ & _ & _ & -> & _).
  unfold update_order_status, cancel_order, get_current_session. simpl.
  by erewrite deleted_not_found by eauto.
Qed.

(** ** The debug listing *)


End Properties.

(** * The properties on the sample data *)

Section OnSamples.
#[local] Existing Instance sample_platform.

Example sample_db_sessions : verification_sessions sample_db = [sample_session].
Proof. reflexivity. Qed.

Example sample_db_unique : unique_tokens sample_db.
Proof. unfold unique_tokens. simpl. apply NoDup_singleton. Qed.

Lemma expired_session_is_invalid_witness :
  unique_tokens sample_db
  ∧ sample_session ∈ verification_sessions sample_db
  ∧ VerificationSession.expires_at sample_session ≤ 600001000
  ∧ verify_and_create_order sample_client 600001000 600001001 600001002
      (VerificationRequest.mk "tok-1" "1234") sample_db
    = (sample_db,
       Raise (HTTPException status.HTTP_401_UNAUTHORIZED "Invalid or expired session"))
  ∧ resend_verification_code sample_client 600001000 600001003 "tok-1" sample_db
    = (sample_db,
       Raise (HTTPException status.HTTP_404_NOT_FOUND "Session not found or expired")).
Proof.
  assert (unique_tokens sample_db) as H1 by apply sample_db_unique.
  assert (sample_session ∈ verification_sessions sample_db) as H2
    by (rewrite sample_db_sessions; apply list_elem_of_singleton; reflexivity).
  assert (VerificationSession.expires_at sample_session ≤ 600001000) as H3
    by (simpl; lia).
  split_and!; [exact H1|exact H2|exact H3| |];
    apply (expired_session_is_invalid sample_client sample_db sample_session
             600001000 600001001 600001002 600001003 "1234" H1 H2 H3).
Defined.

Lemma unverified_code_is_counted_witness :
  (verify_and_create_order exhausted_client 2000 2001 2002
     (VerificationRequest.mk "tok-1" "0000") sample_db
   = (with_sessions [] sample_db,
      Raise (HTTPException status.HTTP_403_FORBIDDEN
               "Maximum verification attempts exceeded")))
  ∧ (∃ e, verify_and_create_order sample_client 2000 2001 2002
            (VerificationRequest.mk "tok-1" "0000") sample_db
          = (with_sessions [attempt_counted sample_session] sample_db, Raise e)
          ∧ InvalidCode 2 e).
Proof.
  split.
  - destruct (unverified_code_is_counted exhausted_client 2000 2001 2002
                (VerificationRequest.mk "tok-1" "0000") sample_db 0%nat sample_session
                (mkVerifyPinResult (Some false) (Some 0)))
      as [Hzero _];
      [apply sample_db_unique|reflexivity|reflexivity|reflexivity|reflexivity|].
    destruct (Hzero eq_refl) as (e & Hout & He & _).
    rewrite Hout, He. reflexivity.
  - destruct (unverified_code_is_counted sample_client 2000 2001 2002
                (VerificationRequest.mk "tok-1" "0000") sample_db 0%nat sample_session
                (mkVerifyPinResult (Some false) (Some 2)))
      as [_ Hmore];
      [apply sample_db_unique|reflexivity|reflexivity|reflexivity|reflexivity|].
    apply Hmore. simpl. lia.
Defined.

Lemma invalid_code_counts_one_attempt_witness :
  ∃ i session session',
    list_find (live_token "tok-1" 2000) (verification_sessions sample_db) = Some (i, session)
    ∧ [attempt_counted sample_session] = <[i := session']> (verification_sessions sample_db)
    ∧ VerificationSession.attempts session' = VerificationSession.attempts session + 1.
Proof.
  destruct (invalid_code_counts_one_attempt sample_client 2000 2001 2002
              (VerificationRequest.mk "tok-1" "0000") sample_db
              (with_sessions [attempt_counted sample_session] sample_db)
              (HTTPException status.HTTP_400_BAD_REQUEST
                 "Invalid code. 2 attempts remaining.") 2)
    as (i & session & session' & Hfind & Hrows & Hatt & _);
    [reflexivity|reflexivity|].
  exists i, session, session'. split_and!; [exact Hfind|exact Hrows|exact Hatt].
Defined.

Lemma provider_failure_changes_nothing_witness :
  (∃ e, initiate_order unreachable_client 1000 "tok-2" 1000 1000 sample_request sample_db
        = (sample_db, Raise e) ∧ ProviderUnavailable e)
  ∧ (∃ e, verify_and_create_order unreachable_client 2000 2001 2002
            (VerificationRequest.mk "tok-1" "1234") sample_db
          = (sample_db, Raise e) ∧ ProviderUnavailable e).
Proof.
  destruct (provider_failure_changes_nothing unreachable_client
              1000 "tok-2" 1000 1000 sample_request
              2000 2001 2002 (VerificationRequest.mk "tok-1" "1234")
              sample_db 0%nat sample_session) as [Hinit Hverify].
  split.
  - apply Hinit.
    + vm_compute. reflexivity.
    + exists (PyFloat 0.125%float). reflexivity.
    + left. exists (OSError "[Errno 111] Connection refused"). reflexivity.
  - apply Hverify.
    + reflexivity.
    + reflexivity.
    + exists (OSError "[Errno 111] Connection refused"). reflexivity.
Defined.

(** The same on an answer without PIN identifier. *)
Example initiate_without_pinId :
  initiate_order no_pin_client 1000 "tok-2" 1000 1000 sample_request sample_db
  = (sample_db,
     Raise (HTTPException status.HTTP_503_SERVICE_UNAVAILABLE
              "SMS service error: 503: Failed to send verification code")).
Proof. reflexivity. Qed.

Example first_confirm_succeeds :
  verify_and_create_order sample_client 2000 2001 2002
    (VerificationRequest.mk "tok-1" "1234") sample_db
  = (confirmed_db,
     Return (OrderResponse.mk 1 "+8801752304601" "12 Lake Road, Dhaka" "bkash"
               "pending" [sample_book] 0 "verified" 2001 true)).
Proof. reflexivity. Qed.

(** C1, as stated, fails: after the confirmation of ["tok-1"] has
    succeeded, a second confirmation with the same token fails with
    status 401, "Invalid or expired session", which is SessionInvalid and
    not AlreadyConsumed. *)
Lemma second_confirm_not_AlreadyConsumed :
  verify_and_create_order sample_client 2000 2001 2002
    (VerificationRequest.mk "tok-1" "1234") sample_db
  = (confirmed_db,
     Return (OrderResponse.mk 1 "+8801752304601" "12 Lake Road, Dhaka" "bkash"
               "pending" [sample_book] 0 "verified" 2001 true))
  ∧ verify_and_create_order sample_client 3000 3001 3002
      (VerificationRequest.mk "tok-1" "1234") confirmed_db
    = (confirmed_db,
       Raise (HTTPException status.HTTP_401_UNAUTHORIZED "Invalid or expired session"))
  ∧ ¬ AlreadyConsumed
        (HTTPException status.HTTP_401_UNAUTHORIZED "Invalid or expired session").
Proof.
  split_and!; [reflexivity|reflexivity|].
  unfold AlreadyConsumed. intros H. by simplify_eq.
Qed.

Lemma second_confirm_is_SessionInvalid_witness :
  orders confirmed_db = orders sample_db ++ [sample_order]
  ∧ verify_and_create_order exhausted_client 3000 3001 3002
      (VerificationRequest.mk "tok-1" "9999") confirmed_db
    = (confirmed_db,
       Raise (HTTPException status.HTTP_401_UNAUTHORIZED "Invalid or expired session")).
Proof.
  destruct (second_confirm_is_SessionInvalid sample_client 2000 2001 2002
              (VerificationRequest.mk "tok-1" "1234") sample_db confirmed_db
              (OrderResponse.mk 1 "+8801752304601" "12 Lake Road, Dhaka" "bkash"
                 "pending" [sample_book] 0 "verified" 2001 true))
    as [_ Hsecond]; [apply sample_db_unique|reflexivity|].
  split; [reflexivity|].
  apply (Hsecond exhausted_client 3000 3001 3002 "9999").
Defined.

(** C4, as stated, fails: five sessions were created for the number
    within the hour before the instant 6000, each was consumed by its
    confirmation and deleted, none is left in the table, and the sixth
    [initiate_order] returns instead of failing with RateLimited. *)
Lemma sixth_initiate_after_five_confirmed :
  sessions_created "+8801752304601" (6000 - timedelta_hours 1) five_orders empty_db = 5
  ∧ recent_sessions "+8801752304601" 6000 (serve_all five_orders empty_db) = 0
  ∧ snd (initiate_order sample_client 6000 "tok-6" 6000 6000 sample_request
           (serve_all five_orders empty_db))
    = Return (InitiateResponse.mk "Verification code sent to your phone" "tok-6" 600
                (PyFloat 0.125%float)).
Proof. split_and!; vm_compute; reflexivity. Qed.

(** Five sessions that are still stored do stop the sixth request. *)
Example sixth_initiate_after_five_pending :
  snd (initiate_order sample_client 6000 "tok-6" 6000 6000 sample_request
         (serve_all five_pending empty_db))
  = Raise (HTTPException status.HTTP_429_TOO_MANY_REQUESTS
             "Too many verification attempts. Please try again later.").
Proof. vm_compute. reflexivity. Qed.



(** One book of price 3000000000: the total is returned as it is, and
    the confirmation, whose integer 3000000000 is above the 32-bit range
    of the sample platform, is refused by the insert: no order is
    created and the session stays in the table. *)
Example total_out_of_range_is_refused :
  let request :=
    OrderRequest.mk "+8801752304601" "12 Lake Road, Dhaka" BKASH
      [Book.mk "978-0441013593" "Dune" 3000000000%float 1] in
  let db1 := fst (initiate_order sample_client 1000 "tok-1" 1000 1000 request empty_db) in
  let outcome :=
    verify_and_create_order sample_client 2000 2001 2002
      (VerificationRequest.mk "tok-1" "1234") db1 in
  snd outcome = Raise DataError
  ∧ orders (fst outcome) = []
  ∧ verification_sessions (fst outcome) = verification_sessions db1
  ∧ length (verification_sessions db1) = 1%nat.
Proof. split_and!; vm_compute; reflexivity. Qed.

Example delivered_db_orders :
  orders delivered_db
  = [Order.mk 1 "+8801752304601" "12 Lake Road, Dhaka" "bkash" "pending"
       [sample_book] 0 "delivered" 1500 5001 true].
Proof. vm_compute. reflexivity. Qed.

(** The chain [verified → processing → shipped → delivered] succeeds step
    by step. *)
Example chain_succeeds :
  let db0 := serve_all (take 3 delivered_history) empty_db in
  let step1 := update_order_status 1 PROCESSING "tok-2" 3000 3001 db0 in
  let step2 := update_order_status 1 SHIPPED "tok-2" 4000 4001 (fst step1) in
  let step3 := update_order_status 1 DELIVERED "tok-2" 5000 5001 (fst step2) in
  snd step1 = Return "Order status updated to processing"
  ∧ snd step2 = Return "Order status updated to shipped"
  ∧ snd step3 = Return "Order status updated to delivered"
  ∧ fst step3 = delivered_db.
Proof. split_and!; vm_compute; reflexivity. Qed.

(** C2: on the delivered order, with the live token of its owner, the
    request of the state [processing] is not in the table; the handler
    means to raise the 400 that names both states, but the lookup of
    [HTTP_400_BAD_REQUEST] on its parameter [status] raises
    [AttributeError] first, which is not InvalidTransition.  The order is
    unchanged. *)
Theorem rejected_transition_raises_AttributeError :
  transition_allowed DELIVERED PROCESSING = false
  ∧ update_order_status 1 PROCESSING "tok-2" 6000 6001 delivered_db
    = (delivered_db, Raise AttributeError)
  ∧ ¬ InvalidTransition DELIVERED PROCESSING AttributeError.
Proof.
  split_and!; [reflexivity|vm_compute; reflexivity|].
  unfold InvalidTransition. discriminate.
Qed.

Example foreign_db_rows :
  Order.phone_number <$> orders foreign_db = ["+8801752304601"]
  ∧ VerificationSession.phone_number <$> verification_sessions foreign_db
    = ["+8801911000000"].
Proof. split; vm_compute; reflexivity. Qed.

(** C3: the holder of a live token for another phone number asks for a
    new state of order 1.  No order of that number has the identifier, and
    the handler means to answer 404, "Order not found or unauthorized";
    the lookup of [HTTP_404_NOT_FOUND] on its parameter [status] raises
    [AttributeError] instead, which is neither SessionInvalid nor
    NotFoundOrUnauthorized.  The order is unchanged, and [cancel_order]
    on the same input does answer NotFoundOrUnauthorized. *)
Theorem foreign_token_raises_AttributeError :
  update_order_status 1 PROCESSING "tok-9" 3000 3001 foreign_db
  = (foreign_db, Raise AttributeError)
  ∧ ¬ SessionInvalid AttributeError
  ∧ ¬ NotFoundOrUnauthorized AttributeError
  ∧ cancel_order 1 "tok-9" 3000 3001 foreign_db
    = (foreign_db,
       Raise (HTTPException status.HTTP_404_NOT_FOUND "Order not found or unauthorized")).
Proof.
  split_and!; [vm_compute; reflexivity| | |vm_compute; reflexivity].
  - intros [H|H]; discriminate.
  - unfold NotFoundOrUnauthorized. discriminate.
Qed.

Lemma reachable_rows_consistent_witness :
  NoDup (Order.id <$> orders delivered_db)
  ∧ (∀ o, o ∈ orders delivered_db →
       Order.verified o = true
       ∧ Order.payment_status o = "pending"
       ∧ ∃ st, st ≠ PENDING ∧ Order.order_status o = OrderStatus_value st).
Proof.
  destruct (reachable_rows_consistent delivered_db) as (_ & _ & Hids & _ & Horders).
  - apply reachable_serve_all. constructor.
  - split; [exact Hids|exact Horders].
Defined.

Lemma confirmed_order_can_be_fetched_witness :
  get_order 1 confirmed_db
  = Return (OrderResponse.mk 1 "+8801752304601" "12 Lake Road, Dhaka" "bkash"
              "pending" [sample_book] 0 "verified" 2001 true).
Proof.
  apply (confirmed_order_can_be_fetched sample_client 2000 2001 2002
           (VerificationRequest.mk "tok-1" "1234") sample_db confirmed_db
           (OrderResponse.mk 1 "+8801752304601" "12 Lake Road, Dhaka" "bkash"
              "pending" [sample_book] 0 "verified" 2001 true)).
  - apply (reachable_serve_all [sample_initiate 1000 "tok-1"]). constructor.
  - reflexivity.
Defined.

Lemma get_orders_lists_the_matching_orders_witness :
  order_response sample_order
  ∈ get_orders 0 100 (Some "+8801752304601") confirmed_db.
Proof.
  destruct (get_orders_lists_the_matching_orders 0 100 (Some "+8801752304601")
              confirmed_db) as (_ & _ & Hall).
  apply Hall.
  - simpl. lia.
  - apply list_elem_of_here.
  - right. reflexivity.
Defined.

Lemma status_only_moves_forward_witness :
  ∃ o' next,
    orders delivered_db !! 0%nat = Some o'
    ∧ Order.order_status o' = OrderStatus_value next
    ∧ later_status VERIFIED next = true.
Proof.
  apply (status_only_moves_forward (drop 2 delivered_history)
           (serve_all (take 2 delivered_history) empty_db) 0
           (Order.mk 1 "+8801752304601" "12 Lake Road, Dhaka" "bkash" "pending"
              [sample_book] 0 "verified" 1500 1500 true) VERIFIED);
    [reflexivity|reflexivity|discriminate].
Defined.

Lemma orders_are_kept_witness :
  ∃ o', o' ∈ orders delivered_db
        ∧ Order.id o' = 1
        ∧ Order.phone_number o' = "+8801752304601"
        ∧ Order.total_amount o' = 0.
Proof.
  destruct (orders_are_kept (drop 2 delivered_history)
              (serve_all (take 2 delivered_history) empty_db)
              (Order.mk 1 "+8801752304601" "12 Lake Road, Dhaka" "bkash" "pending"
                 [sample_book] 0 "verified" 1500 1500 true))
    as (o' & Hin & Hid & Hphone & _ & _ & _ & _ & Htotal & _).
  - vm_compute. apply list_elem_of_here.
  - exists o'. split; [exact Hin|]. split; [exact Hid|]. split; [exact Hphone|exact Htotal].
Defined.

Lemma delivered_order_is_final_witness :
  orders (serve_all [Cancel 1 "tok-2" 6000 6001;
                     UpdateStatus 1 CANCELLED "tok-2" 7000 7001] delivered_db) !! 0%nat
  = Some (Order.mk 1 "+8801752304601" "12 Lake Road, Dhaka" "bkash" "pending"
            [sample_book] 0 "delivered" 1500 5001 true).
Proof.
  apply (delivered_order_is_final
           [Cancel 1 "tok-2" 6000 6001; UpdateStatus 1 CANCELLED "tok-2" 7000 7001]
           delivered_db 0).
  - vm_compute. reflexivity.
  - reflexivity.
Defined.

Lemma session_lives_ten_minutes_witness :
  verify_and_create_order sample_client 600001000 600001001 600001002
    (VerificationRequest.mk "tok-1" "1234") sample_db
  = (sample_db,
     Raise (HTTPException status.HTTP_401_UNAUTHORIZED "Invalid or expired session"))
  ↔ 1000 + timedelta_minutes 10 ≤ 600001000.
Proof.
  apply (session_lives_ten_minutes sample_client 1000 "tok-1" 1000 1000
           sample_request empty_db sample_db
           (InitiateResponse.mk "Verification code sent to your phone" "tok-1" 600
              (PyFloat 0.125%float))).
  reflexivity.
Defined.

Lemma failed_confirmation_creates_no_order_witness :
  orders (with_sessions [] sample_db) = orders sample_db
  ∧ AttemptsExhausted
      (HTTPException status.HTTP_403_FORBIDDEN "Maximum verification attempts exceeded").
Proof.
  destruct (failed_confirmation_creates_no_order exhausted_client 2000 2001 2002
              (VerificationRequest.mk "tok-1" "0000") sample_db
              (with_sessions [] sample_db)
              (HTTPException status.HTTP_403_FORBIDDEN
                 "Maximum verification attempts exceeded"))
    as (Horders & _); [reflexivity|].
  split; [exact Horders|reflexivity].
Defined.

Lemma resent_code_confirms_witness :
  ∃ response,
    verify_and_create_order second_pin_client 700000000 700000001 700000002
      (VerificationRequest.mk "tok-1" "5678")
      (fst (resend_verification_code second_pin_client 500000000 500000001
              "tok-1" sample_db))
    = (mkDatabase [] [order_of_session 1 sample_session 0 700000001 700000002] 2 2,
       Return response)
    ∧ OrderResponse.total_amount response = 0.
Proof.
  destruct (resent_code_confirms second_pin_client 500000000 500000001 "tok-1"
              sample_db
              (fst (resend_verification_code second_pin_client 500000000 500000001
                      "tok-1" sample_db))
              600
              second_pin_client 700000000 700000001 700000002 "5678"
              (mkVerifyPinResult (Some true) None))
    as (i & session & pin_id & Hfind & Hpin & Hconfirm);
    [apply sample_db_unique|reflexivity|].
  assert (i = 0%nat ∧ session = sample_session) as [-> ->]
    by (vm_compute in Hfind; by simplify_eq).
  assert (pin_id = "PIN-2") as -> by (vm_compute in Hpin; by simplify_eq).
  apply (Hconfirm ltac:(vm_compute; reflexivity) eq_refl eq_refl 0).
  - vm_compute. split_and!; done.
  - vm_compute. split; done.
Defined.

Lemma wrong_codes_add_up_witness :
  serve_all
    [Verify sample_client 2000 2000 2000 (VerificationRequest.mk "tok-1" "0000");
     Verify sample_client 3000 3000 3000 (VerificationRequest.mk "tok-1" "1111");
     Verify sample_client 4000 4000 4000 (VerificationRequest.mk "tok-1" "2222")]
    sample_db
  = with_sessions [VerificationSession.set_attempts 3 sample_session] sample_db.
Proof.
  apply (wrong_codes_add_up
           [(sample_client, 2000, "0000"); (sample_client, 3000, "1111");
            (sample_client, 4000, "2222")] sample_db 0 sample_session).
  - apply sample_db_unique.
  - reflexivity.
  - reflexivity.
  - repeat apply Forall_cons_2; [..|apply Forall_nil_2];
      (split; [vm_compute; reflexivity|]);
      exists (mkVerifyPinResult (Some false) (Some 2));
      (split_and!; [reflexivity|reflexivity|discriminate]).
Defined.

Lemma expired_token_authorises_nothing_witness :
  cancel_order 1 "tok-2" 600002000 600002001 delivered_db
  = (delivered_db,
     Raise (HTTPException status.HTTP_401_UNAUTHORIZED "Invalid or expired session")).
Proof.
  apply (expired_token_authorises_nothing delivered_db
           (VerificationSession.mk 2 "tok-2" "+8801752304601" "PIN-1" 0 false
              600002000 2000
              (OrderData.mk "+8801752304601" "12 Lake Road, Dhaka" "bkash"
                 [sample_book] (PyFloat 0.125%float)))
           600002000 600002001 1 CANCELLED).
  - unfold unique_tokens. vm_compute. apply NoDup_singleton.
  - vm_compute. apply list_elem_of_here.
  - simpl. lia.
Defined.

Lemma consumed_token_authorises_nothing_witness :
  cancel_order 1 "tok-1" 2500 2501 confirmed_db
  = (confirmed_db,
     Raise (HTTPException status.HTTP_401_UNAUTHORIZED "Invalid or expired session")).
Proof.
  apply (consumed_token_authorises_nothing sample_client 2000 2001 2002
           (VerificationRequest.mk "tok-1" "1234") sample_db confirmed_db
           (OrderResponse.mk 1 "+8801752304601" "12 Lake Road, Dhaka" "bkash"
              "pending" [sample_book] 0 "verified" 2001 true)
           1 CANCELLED 2500 2501).
  - apply sample_db_unique.
  - reflexivity.
Defined.



End OnSamples.
